(** * Token router client: address derivation and account composition

    A shallow embedding of [solana/ts/src/tokenRouter/index.ts], the
    client-side SDK of the token router program.  The class
    [TokenRouterProgram] derives program addresses, hashes order parameters
    into a transfer authority, selects the counterpart programs of a network
    and composes the accounts of each instruction.

    Layout of the development:
    - [Buf]: byte buffers and the fixed-width big-endian writers;
    - [Base58]: the text form of public keys;
    - exceptions, the [Async] monad (a result plus the trace of ledger reads
      and collaborator derivations);
    - the class [Collaborators]: what the imported packages provide;
    - the methods of [TokenRouterProgram], in source order;
    - the theorems, one group per property of the specification. *)

From Stdlib Require Import ZArith List Bool Lia.
From Stdlib.Strings Require Import String Ascii Byte.
Import ListNotations.

#[local] Set Warnings "-register-all".

Local Open Scope string_scope.
Local Open Scope list_scope.
Local Open Scope Z_scope.

(** ** Buffers *)

Module Buf.

(** A Node [Buffer]: a sequence of octets. *)
Definition Buffer := list byte.

(** Storing a number into an octet keeps its low eight bits. *)
Definition byte_of_Z (z : Z) : byte :=
  match Byte.of_N (Z.to_N (Z.land z 255)) with
  | Some b => b
  | None => x00
  end.

Definition Z_of_byte (b : byte) : Z := Z.of_N (Byte.to_N b).

(** [len] octets of [v], most significant first. *)
Fixpoint be_bytes (len : nat) (v : Z) : Buffer :=
  match len with
  | O => []
  | S k => byte_of_Z (Z.shiftr v (8 * Z.of_nat k)) :: be_bytes k v
  end.

(** The number a buffer denotes when read most significant octet first. *)
Definition be_value (b : Buffer) : Z :=
  fold_left (fun acc x => acc * 256 + Z_of_byte x) b 0.

(** Number of octets of a non-negative number (zero has none). *)
Definition byte_length (v : Z) : nat :=
  Z.to_nat ((Z.log2 v + 8) / 8 * (if v =? 0 then 0 else 1)).

(** [Buffer.from(str)] for text in the ASCII range. *)
Definition from_string (s : string) : Buffer := list_byte_of_string s.

(** [Buffer.from(array)]: every entry is truncated to an octet. *)
Definition from_array (a : list Z) : Buffer := map byte_of_Z a.

(** [Buffer.alloc(n)]: [n] zero octets. *)
Definition alloc (n : nat) : Buffer := repeat x00 n.

End Buf.

Import Buf.

(** ** Exceptions and results *)

(** What a call may throw.  [Error msg] is [throw new Error(msg)] of the
    source; the others are raised by the packages the source calls. *)
Inductive Exception : Type :=
| Error (msg : string)
| RangeError (what : string)
| AccountNotFound (addr : Buffer).

Inductive result (A : Type) : Type :=
| Ok (a : A)
| Throw (e : Exception).

Arguments Ok {A} a.
Arguments Throw {A} e.

(** Sequencing of calls that may throw, shared by the synchronous methods
    ([result]) and the [async] ones ([Async], below). *)
Class Monad (M : Type -> Type) : Type := {
  ret : forall {A}, A -> M A;
  bind : forall {A B}, M A -> (A -> M B) -> M B
}.

Notation "x <- c ;; k" := (bind c (fun x => k))
  (at level 61, c at next level, right associativity).

Notation "' pat <- c ;; k" := (bind c (fun x => match x with pat => k end))
  (at level 61, pat pattern, c at next level, right associativity).

#[export] Instance result_monad : Monad result := {
  ret := fun A a => Ok a;
  bind := fun A B r k =>
    match r with
    | Ok a => k a
    | Throw e => Throw e
    end
}.

(** ** Public keys *)

Module Base58.

Definition alphabet : string :=
  "123456789ABCDEFGHJKLMNPQRSTUVWXYZabcdefghijkmnopqrstuvwxyz".

Fixpoint index_from (c : ascii) (s : string) (i : Z) : option Z :=
  match s with
  | EmptyString => None
  | String d rest => if Ascii.eqb c d then Some i else index_from c rest (i + 1)
  end.

Definition digit (c : ascii) : option Z := index_from c alphabet 0.

(** Leading ['1'] characters stand for leading zero octets. *)
Fixpoint leading_ones (s : string) : nat :=
  match s with
  | String "1"%char rest => S (leading_ones rest)
  | _ => O
  end.

Fixpoint value_from (s : string) (acc : Z) : option Z :=
  match s with
  | EmptyString => Some acc
  | String c rest =>
      match digit c with
      | Some d => value_from rest (acc * 58 + d)
      | None => None
      end
  end.

(** [bs58.decode]: [None] on a character outside the alphabet. *)
Definition decode (s : string) : option Buffer :=
  match value_from s 0 with
  | Some v => Some (repeat x00 (leading_ones s) ++ be_bytes (byte_length v) v)
  | None => None
  end.

End Base58.

(** A [PublicKey] wraps the octets of an address. *)
Record PublicKey : Type := mkPublicKey { toBuffer : Buffer }.

(** [new PublicKey(text)]: the text is decoded and must give 32 octets. *)
Definition PublicKey_new (text : string) : result PublicKey :=
  match Base58.decode text with
  | Some b =>
      if Nat.eqb (List.length b) 32 then Ok (mkPublicKey b)
      else Throw (Error "Invalid public key input")
  | None => Throw (Error "Non-base58 character")
  end.

(** [PublicKey.default] stands in where a literal of the packages fails to
    decode; every literal below decodes (see [well_known_ids_decode]). *)
Definition PublicKey_of_literal (text : string) : PublicKey :=
  match PublicKey_new text with
  | Ok k => k
  | Throw _ => mkPublicKey (alloc 32)
  end.

(** ** Ledger records read by the client *)

Module PreparedOrderInfo.
(** The fields of a stored prepared order that the client consumes. *)
Record t : Type := {
  orderSender : PublicKey;
  preparedBy : PublicKey;
  refundToken : PublicKey;
  targetChain : Z
}.
End PreparedOrderInfo.

Record PreparedOrder : Type := { info : PreparedOrderInfo.t }.

Record CctpProtocol : Type := { domain : Z }.

(** [protocol.cctp] is [undefined] for every variant but the CCTP one. *)
Record MessageProtocol : Type := { cctp : option CctpProtocol }.

Record RouterEndpointInfo : Type := { protocol : MessageProtocol }.

Record TokenAccount : Type := { owner : PublicKey }.

(** The RPC connection, as the lookups the client performs through it. *)
Record Connection : Type := {
  preparedOrderAt : PublicKey -> option PreparedOrder;
  routerEndpointAt : PublicKey -> option RouterEndpointInfo;
  tokenAccountAt : PublicKey -> option TokenAccount
}.

(** ** Asynchronous calls *)

(** What an [async] method does that a caller can observe besides its
    result: the ledger reads, and the two collaborator derivations that are
    keyed by chain data. *)
Inductive Event : Type :=
| ReadPreparedOrder (addr : PublicKey)
| ReadRouterEndpoint (addr : PublicKey)
| ReadTokenAccount (addr : PublicKey)
| DeriveRouterEndpoint (chain : Z)
| ComposeBurnAccounts (mint : PublicKey) (destinationDomain : Z).

(** An awaited promise: the value or the rejection, and what happened on the
    way, oldest first. *)
Definition Async (A : Type) : Type := (result A * list Event)%type.

#[export] Instance async_monad : Monad Async := {
  ret := fun A a => (Ok a, []);
  bind := fun A B m k =>
    match m with
    | (Ok a, t) => let '(r, t') := k a in (r, t ++ t')
    | (Throw e, t) => (Throw e, t)
    end
}.

(** A synchronous call made inside an [async] body. *)
Definition lift {A} (r : result A) : Async A := (r, []).

Definition throw {A} (e : Exception) : Async A := (Throw e, []).

Definition emit (e : Event) : Async unit := (Ok tt, [e]).

(** [promise.catch(handler)]. *)
Definition catch {A} (m : Async A) (handler : Exception -> Async A) : Async A :=
  match m with
  | (Ok a, t) => (Ok a, t)
  | (Throw e, t) => let '(r, t') := handler e in (r, t ++ t')
  end.

(** A ledger read: the event, then the record or a rejection. *)
Definition fetch {A} (ev : Event) (addr : PublicKey) (found : option A) : Async A :=
  _ <- emit ev;;
  match found with
  | Some a => ret a
  | None => throw (AccountNotFound (toBuffer addr))
  end.

(** [x ?? d] on an optional input. *)
Definition orElse {A} (x : option A) (d : A) : A :=
  match x with
  | Some a => a
  | None => d
  end.

(** ** Instructions *)

(** A value given to Anchor's [.accounts({...})]: an address, [null], or a
    nested group of accounts. *)
Inductive AccountValue : Type :=
| Address (k : PublicKey)
| NullAccount
| Composite (fields : list (string * AccountValue)).

Definition Accounts : Type := list (string * AccountValue).

(** An input that may be left out ([option]) and, when given, may be [null]. *)
Inductive nullable (A : Type) : Type :=
| null
| notNull (a : A).

Arguments null {A}.
Arguments notNull {A} a.

Definition nullableAccount (k : nullable PublicKey) : AccountValue :=
  match k with
  | null => NullAccount
  | notNull a => Address a
  end.

Fixpoint account (role : string) (accs : Accounts) : option AccountValue :=
  match accs with
  | [] => None
  | (r, v) :: rest => if String.eqb role r then Some v else account role rest
  end.

(** Order parameters; [minAmountOut] is a [bigint] or [null]. *)
Record PrepareMarketOrderArgs : Type := {
  amountIn : Z;
  minAmountOut : option Z;
  targetChain : Z;
  redeemer : list Z;
  redeemerMessage : Buffer
}.

(** The encoded arguments of a program method; the encoder keeps the fields
    the IDL names, so the [useTransferAuthority] flag spread into the
    argument object of [prepareMarketOrder] is not part of it. *)
Inductive MethodArgs : Type :=
| NoArgs
| PrepareMarketOrderData (args : PrepareMarketOrderArgs).

Inductive TransactionInstruction : Type :=
| MethodsInstruction (method : string) (args : MethodArgs) (accounts : Accounts)
| ApproveInstruction (source delegate authority : PublicKey) (amount : Z).

Definition accountsOf (ix : TransactionInstruction) : Accounts :=
  match ix with
  | MethodsInstruction _ _ accs => accs
  | ApproveInstruction _ _ _ _ => []
  end.

(** ** Collaborators *)

Record UpgradeManagerProgram : Type := {
  um_connection : Connection;
  um_programId : string
}.

Record TokenMessengerMinterProgram : Type := {
  tmm_connection : Connection;
  tmm_programId : string
}.

Record MessageTransmitterProgram : Type := {
  mt_connection : Connection;
  mt_programId : string
}.

Record MatchingEngineProgram : Type := {
  me_connection : Connection;
  me_programId : string;
  me_mint : PublicKey
}.

Record DepositForBurnWithCallerAccounts : Type := {
  senderAuthority : PublicKey;
  messageTransmitterConfig : PublicKey;
  tokenMessenger : PublicKey;
  remoteTokenMessenger : PublicKey;
  tokenMinter : PublicKey;
  localToken : PublicKey;
  tokenMessengerMinterEventAuthority : PublicKey;
  messageTransmitterProgramId : PublicKey;
  tokenMessengerMinterProgramId : PublicKey
}.

(** What the imported packages and sibling modules provide and this file
    consumes by interface only: the hash, the program-derived-address
    search, the curve test, the chain-id table, the address functions of
    the common, matching-engine and CCTP modules, and what [uint64ToBN] of
    the common module does with a value that is not a u64. *)
Class Collaborators : Type := {
  keccak256 : Buffer -> Buffer;
  uint64ToBN_outside : Z -> result Z;
  findProgramAddressSync : list Buffer -> PublicKey -> PublicKey * Z;
  isOnCurve : Buffer -> bool;
  isChainId : Z -> bool;
  common_coreMessageAddress : PublicKey -> PublicKey -> PublicKey;
  common_cctpMessageAddress : PublicKey -> PublicKey -> PublicKey;
  matchingEngineSdk_localnet : string;
  matchingEngineSdk_testnet : string;
  routerEndpointAddress : MatchingEngineProgram -> Z -> PublicKey;
  depositForBurnWithCallerAccounts :
    TokenMessengerMinterProgram -> PublicKey -> Z -> DepositForBurnWithCallerAccounts
}.

(** The [sha3] hasher: [update] absorbs, [digest] hashes what was absorbed. *)
Module Keccak.
Record t : Type := { size : Z; absorbed : Buffer }.
Definition new (size : Z) : t := {| size := size; absorbed := [] |}.
Definition update (h : t) (data : Buffer) : t :=
  {| size := size h; absorbed := absorbed h ++ data |}.
Definition digest {C : Collaborators} (h : t) : Buffer := keccak256 (absorbed h).
End Keccak.

(** Modelled from the spec: [uint64ToBN] lives in the common module, whose
    source is not part of this file.  The spec types amounts as u64 and has
    them written as 8-byte big-endian, so a u64 is converted unchanged.
    What the function does with any other value is stated nowhere: it is
    the collaborator [uint64ToBN_outside]. *)
Definition uint64ToBN {C : Collaborators} (value : Z) : result Z :=
  if (0 <=? value) && (value <? 2 ^ 64) then Ok value
  else uint64ToBN_outside value.

(** [bn.toBuffer("be", length)]: the magnitude of the number, zero-padded
    on the left, refused when it needs more than [length] octets. *)
Definition BN_toBuffer_be (bn : Z) (length : nat) : result Buffer :=
  if (byte_length (Z.abs bn) <=? length)%nat then Ok (be_bytes length (Z.abs bn))
  else Throw (Error "byte array longer than desired length").

(** [buf.writeUInt16BE(value)] at offset 0 of a two-octet buffer. *)
Definition writeUInt16BE (buf : Buffer) (value : Z) : result Buffer :=
  if (0 <=? value) && (value <=? 65535) then
    Ok (byte_of_Z (Z.shiftr value 8) :: byte_of_Z value :: skipn 2 buf)
  else Throw (RangeError "ERR_OUT_OF_RANGE").

(** Anchor's [.instruction()] for [prepareMarketOrder]: the arguments are
    written field by field in the order of the IDL, and a writer given a
    value outside its width throws.  Each amount is written as 8 octets
    (refused like [toBuffer("be", 8)]), the chain as a u16, every redeemer
    entry as a u8; the message is written as it is. *)
Definition encodePrepareMarketOrder (args : PrepareMarketOrderArgs) : result unit :=
  _ <- BN_toBuffer_be (amountIn args) 8;;
  _ <- match minAmountOut args with
       | Some m => BN_toBuffer_be m 8
       | None => ret []
       end;;
  _ <- (if (0 <=? targetChain args) && (targetChain args <=? 65535) then ret tt
        else Throw (RangeError "ERR_OUT_OF_RANGE"));;
  if forallb (fun entry => (0 <=? entry) && (entry <? 256)) (redeemer args)
  then ret tt
  else Throw (RangeError "ERR_OUT_OF_RANGE").

(** ** Well-known program ids of the packages *)

Module splToken.

Definition TOKEN_PROGRAM_ID : PublicKey :=
  PublicKey_of_literal "TokenkegQfeZyiNwAJbNbGKPFXCWuBvf9Ss623VQ5DA".

Definition ASSOCIATED_TOKEN_PROGRAM_ID : PublicKey :=
  PublicKey_of_literal "ATokenGPvbdGVxr1b2hvZbsiqW5xWH25efTNsLJA8knL".

(** The standard associated-token-account derivation.  An owner off the
    curve is refused unless the caller allows it. *)
Definition getAssociatedTokenAddressSync {C : Collaborators}
    (mint owner : PublicKey) (allowOwnerOffCurve : bool) : result PublicKey :=
  if negb allowOwnerOffCurve && negb (isOnCurve (toBuffer owner))
  then Throw (Error "TokenOwnerOffCurveError")
  else Ok (fst (findProgramAddressSync
                  [toBuffer owner; toBuffer TOKEN_PROGRAM_ID; toBuffer mint]
                  ASSOCIATED_TOKEN_PROGRAM_ID)).

(** [getAccount(connection, address)]. *)
Definition getAccount (connection : Connection) (address : PublicKey)
  : Async TokenAccount :=
  fetch (ReadTokenAccount address) address (tokenAccountAt connection address).

(** [createApproveInstruction(account, delegate, owner, amount)]. *)
Definition createApproveInstruction (account delegate owner : PublicKey)
    (amount : Z) : TransactionInstruction :=
  ApproveInstruction account delegate owner amount.

End splToken.

Definition SystemProgram_programId : PublicKey :=
  PublicKey_of_literal "11111111111111111111111111111111".

Definition SYSVAR_RENT_PUBKEY : PublicKey :=
  PublicKey_of_literal "SysvarRent111111111111111111111111111111111".

Definition SYSVAR_CLOCK_PUBKEY : PublicKey :=
  PublicKey_of_literal "SysvarC1ock11111111111111111111111111111111".

(** ** The token router client *)

Definition PROGRAM_IDS : list string :=
  ["TokenRouter11111111111111111111111111111111";
   "tD8RmtdcV7bzBeuFgyrFc8wvayj988ChccEzRQzo6md"].

Definition localnet : string := "TokenRouter11111111111111111111111111111111".

Definition testnet : string := "tD8RmtdcV7bzBeuFgyrFc8wvayj988ChccEzRQzo6md".

(** The object state: the two private fields, and of [program] its address
    and the connection of its provider. *)
Record TokenRouterProgram : Type := {
  _programId : string;
  _mint : PublicKey;
  program_programId : PublicKey;
  program_connection : Connection
}.

(** The constructor: Anchor turns the [address] of the IDL into a key. *)
Definition TokenRouterProgram_new (connection : Connection) (programId : string)
    (mint : PublicKey) : result TokenRouterProgram :=
  address <- PublicKey_new programId;;
  ret {| _programId := programId;
         _mint := mint;
         program_programId := address;
         program_connection := connection |}.

Module Custodian.
(** Modelled from the spec: the static [address] of the [Custodian] state
    class, whose source is not part of this file; the spec derives the
    custodian from the program id with the single seed "custodian". *)
Definition address {C : Collaborators} (programId : PublicKey) : PublicKey :=
  fst (findProgramAddressSync [from_string "custodian"] programId).
End Custodian.

Record PublishMessageAccounts : Type := {
  coreBridgeConfig : PublicKey;
  coreEmitterSequence : PublicKey;
  coreFeeCollector : PublicKey;
  coreBridgeProgram : PublicKey
}.

Section Methods.

Context {C : Collaborators}.
Variable self : TokenRouterProgram.

Definition ID : PublicKey := program_programId self.

Definition mint : PublicKey := _mint self.

Definition custodianAddress : PublicKey := Custodian.address ID.

Definition cctpMintRecipientAddress : result PublicKey :=
  splToken.getAssociatedTokenAddressSync mint custodianAddress true.

Definition preparedCustodyTokenAddress (preparedAccount : PublicKey) : PublicKey :=
  fst (findProgramAddressSync
         [from_string "prepared-custody"; toBuffer preparedAccount] ID).

Definition coreMessageAddress (preparedOrder : PublicKey) : PublicKey :=
  common_coreMessageAddress ID preparedOrder.

Definition cctpMessageAddress (preparedOrder : PublicKey) : PublicKey :=
  common_cctpMessageAddress ID preparedOrder.

Definition fetchPreparedOrder (addr : PublicKey) : Async PreparedOrder :=
  fetch (ReadPreparedOrder addr) addr
        (preparedOrderAt (program_connection self) addr).

Definition transferAuthorityAddress (preparedOrder : PublicKey)
    (args : PrepareMarketOrderArgs) : result PublicKey :=
  let hasher := Keccak.new 256 in
  amountBuf <- (bn <- uint64ToBN (amountIn args);; BN_toBuffer_be bn 8);;
  let hasher := Keccak.update hasher amountBuf in
  hasher <- match minAmountOut args with
            | Some m =>
                minBuf <- (bn <- uint64ToBN m;; BN_toBuffer_be bn 8);;
                ret (Keccak.update hasher minBuf)
            | None => ret hasher
            end;;
  chainBuf <- writeUInt16BE (alloc 2) (targetChain args);;
  let hasher := Keccak.update hasher chainBuf in
  let hasher := Keccak.update hasher (from_array (redeemer args)) in
  let hasher := Keccak.update hasher (redeemerMessage args) in
  ret (fst (findProgramAddressSync
              [from_string "transfer-authority";
               toBuffer preparedOrder;
               Keccak.digest hasher]
              ID)).

Definition checkedCustodianComposite (addr : option PublicKey) : AccountValue :=
  Composite [("custodian", Address (orElse addr custodianAddress))].

Definition usdcComposite (inputMint : option PublicKey) : AccountValue :=
  Composite [("mint", Address (orElse inputMint mint))].

(** *** Network selection *)

Definition upgradeManagerProgram : result UpgradeManagerProgram :=
  if String.eqb (_programId self) testnet then
    Ok {| um_connection := program_connection self;
          um_programId := "ucdP9ktgrXgEUnn6roqD2SfdGMR2JSiWHUKv23oXwxt" |}
  else if String.eqb (_programId self) localnet then
    Ok {| um_connection := program_connection self;
          um_programId := "UpgradeManager11111111111111111111111111111" |}
  else Throw (Error "unsupported network").

Definition tokenMessengerMinterProgram : TokenMessengerMinterProgram :=
  {| tmm_connection := program_connection self;
     tmm_programId := "CCTPiPYPc6AsJuwueEnWgSgucamXDZwBd53dQ11YiKX3" |}.

Definition messageTransmitterProgram : MessageTransmitterProgram :=
  {| mt_connection := program_connection self;
     mt_programId := "CCTPmbSD7gX1bxKPAmg77w8oFzNFpaQiQUWD43TKaecd" |}.

Definition matchingEngineProgram : result MatchingEngineProgram :=
  if String.eqb (_programId self) testnet then
    Ok {| me_connection := program_connection self;
          me_programId := matchingEngineSdk_testnet;
          me_mint := mint |}
  else if String.eqb (_programId self) localnet then
    Ok {| me_connection := program_connection self;
          me_programId := matchingEngineSdk_localnet;
          me_mint := mint |}
  else Throw (Error "unsupported network").

Definition coreBridgeProgramId : result PublicKey :=
  if String.eqb (_programId self) testnet then
    PublicKey_new "3u8hJUVTA4jH1wYAyUur7FFZVQ8H635K3tSHHF4ssjQ5"
  else if String.eqb (_programId self) localnet then
    PublicKey_new "worm2ZoG2kUd4vFXhvjh93UUH596ayRfgQ2MgjNMTth"
  else Throw (Error "unsupported network").

Definition publishMessageAccounts (emitter : PublicKey)
  : result PublishMessageAccounts :=
  coreBridgeProgram <- coreBridgeProgramId;;
  ret {| coreBridgeConfig :=
           fst (findProgramAddressSync [from_string "Bridge"] coreBridgeProgram);
         coreEmitterSequence :=
           fst (findProgramAddressSync
                  [from_string "Sequence"; toBuffer emitter] coreBridgeProgram);
         coreFeeCollector :=
           fst (findProgramAddressSync [from_string "fee_collector"] coreBridgeProgram);
         coreBridgeProgram := coreBridgeProgram |}.

(** [matchingEngine.fetchRouterEndpointInfo({ address })]. *)
Definition fetchRouterEndpointInfo (matchingEngine : MatchingEngineProgram)
    (address : PublicKey) : Async RouterEndpointInfo :=
  fetch (ReadRouterEndpoint address) address
        (routerEndpointAt (me_connection matchingEngine) address).

End Methods.

(** *** Inputs of the instruction builders *)

Module ApproveTransferAuthority.
Record accounts : Type := {
  preparedOrder : PublicKey;
  senderToken : PublicKey;
  senderTokenAuthority : option PublicKey
}.
Record output : Type := {
  transferAuthority : PublicKey;
  ix : TransactionInstruction
}.
End ApproveTransferAuthority.

Module PrepareMarketOrder.
Record accounts : Type := {
  payer : PublicKey;
  preparedOrder : PublicKey;
  senderToken : PublicKey;
  senderTokenAuthority : option PublicKey;
  refundToken : option PublicKey;
  programTransferAuthority : option (nullable PublicKey);
  sender : option (nullable PublicKey)
}.
(** [{ useTransferAuthority?: boolean } & PrepareMarketOrderArgs]. *)
Record args : Type := {
  useTransferAuthority : option bool;
  order : PrepareMarketOrderArgs
}.
End PrepareMarketOrder.

Module ClosePreparedOrder.
Record accounts : Type := {
  preparedOrder : PublicKey;
  preparedBy : option PublicKey;
  orderSender : option PublicKey;
  refundToken : option PublicKey
}.
End ClosePreparedOrder.

Module ConsumePreparedFill.
Record accounts : Type := {
  preparedFill : PublicKey;
  redeemer : PublicKey;
  dstToken : PublicKey;
  beneficiary : PublicKey
}.
End ConsumePreparedFill.

Module PlaceMarketOrderCctp.
Record accounts : Type := {
  payer : PublicKey;
  preparedOrder : PublicKey;
  preparedBy : option PublicKey;
  routerEndpoint : option PublicKey
}.
Record args : Type := {
  targetChain : option Z;
  destinationDomain : option Z
}.
End PlaceMarketOrderCctp.

Section Builders.

Context {C : Collaborators}.
Variable self : TokenRouterProgram.

Definition approveTransferAuthorityIx
    (accounts : ApproveTransferAuthority.accounts)
    (args : PrepareMarketOrderArgs) : Async ApproveTransferAuthority.output :=
  let preparedOrder := ApproveTransferAuthority.preparedOrder accounts in
  let senderToken := ApproveTransferAuthority.senderToken accounts in
  let amountIn := amountIn args in
  senderTokenAuthority <-
    match ApproveTransferAuthority.senderTokenAuthority accounts with
    | Some given => ret given
    | None =>
        tokenAccount <- splToken.getAccount (program_connection self) senderToken;;
        ret (owner tokenAccount)
    end;;
  transferAuthority <- lift (transferAuthorityAddress self preparedOrder args);;
  ret {| ApproveTransferAuthority.transferAuthority := transferAuthority;
         ApproveTransferAuthority.ix :=
           splToken.createApproveInstruction
             senderToken transferAuthority senderTokenAuthority amountIn |}.

Definition prepareMarketOrderIx
    (accounts : PrepareMarketOrder.accounts) (args : PrepareMarketOrder.args)
  : Async (option TransactionInstruction * TransactionInstruction) :=
  let payer := PrepareMarketOrder.payer accounts in
  let preparedOrder := PrepareMarketOrder.preparedOrder accounts in
  let senderToken := PrepareMarketOrder.senderToken accounts in
  let senderTokenAuthority := PrepareMarketOrder.senderTokenAuthority accounts in
  let refundToken := orElse (PrepareMarketOrder.refundToken accounts) senderToken in
  let useTransferAuthority :=
    orElse (PrepareMarketOrder.useTransferAuthority args) true in
  let approveIx : option TransactionInstruction := None in
  let sender :=
    match PrepareMarketOrder.sender accounts with
    | None => null
    | Some given => given
    end in
  '(programTransferAuthority, approveIx) <-
    match PrepareMarketOrder.programTransferAuthority accounts with
    | None =>
        if useTransferAuthority then
          approveResult <-
            approveTransferAuthorityIx
              {| ApproveTransferAuthority.preparedOrder := preparedOrder;
                 ApproveTransferAuthority.senderToken := senderToken;
                 ApproveTransferAuthority.senderTokenAuthority := senderTokenAuthority |}
              (PrepareMarketOrder.order args);;
          ret (notNull (ApproveTransferAuthority.transferAuthority approveResult),
               Some (ApproveTransferAuthority.ix approveResult))
        else ret (null, approveIx)
    | Some given => ret (given, approveIx)
    end;;
  amountInBN <- lift (uint64ToBN (amountIn (PrepareMarketOrder.order args)));;
  minAmountOutBN <-
    lift match minAmountOut (PrepareMarketOrder.order args) with
         | None => ret None
         | Some m => bn <- uint64ToBN m;; ret (Some bn)
         end;;
  let data :=
    {| amountIn := amountInBN;
       minAmountOut := minAmountOutBN;
       targetChain := targetChain (PrepareMarketOrder.order args);
       redeemer := redeemer (PrepareMarketOrder.order args);
       redeemerMessage := redeemerMessage (PrepareMarketOrder.order args) |} in
  _ <- lift (encodePrepareMarketOrder data);;
  let prepareIx :=
    MethodsInstruction "prepareMarketOrder" (PrepareMarketOrderData data)
      [("payer", Address payer);
       ("custodian", checkedCustodianComposite self None);
       ("programTransferAuthority", nullableAccount programTransferAuthority);
       ("sender", nullableAccount sender);
       ("preparedOrder", Address preparedOrder);
       ("senderToken", Address senderToken);
       ("refundToken", Address refundToken);
       ("preparedCustodyToken", Address (preparedCustodyTokenAddress self preparedOrder));
       ("usdc", usdcComposite self None);
       ("tokenProgram", Address splToken.TOKEN_PROGRAM_ID);
       ("systemProgram", Address SystemProgram_programId)] in
  ret (approveIx, prepareIx).

(** The test [a === undefined || b === undefined || c === undefined] is the
    second branch of the match: it is taken unless all three are given. *)
Definition closePreparedOrderIx (accounts : ClosePreparedOrder.accounts)
  : Async TransactionInstruction :=
  let preparedOrder := ClosePreparedOrder.preparedOrder accounts in
  let preparedBy := ClosePreparedOrder.preparedBy accounts in
  let orderSender := ClosePreparedOrder.orderSender accounts in
  let refundToken := ClosePreparedOrder.refundToken accounts in
  '(preparedBy, orderSender, refundToken) <-
    match preparedBy, orderSender, refundToken with
    | Some p, Some o, Some r => ret (p, o, r)
    | _, _, _ =>
        stored <- fetchPreparedOrder self preparedOrder;;
        ret (orElse preparedBy (PreparedOrderInfo.preparedBy (info stored)),
             orElse orderSender (PreparedOrderInfo.orderSender (info stored)),
             orElse refundToken (PreparedOrderInfo.refundToken (info stored)))
    end;;
  ret (MethodsInstruction "closePreparedOrder" NoArgs
         [("preparedBy", Address preparedBy);
          ("custodian", checkedCustodianComposite self None);
          ("orderSender", Address orderSender);
          ("preparedOrder", Address preparedOrder);
          ("refundToken", Address refundToken);
          ("preparedCustodyToken", Address (preparedCustodyTokenAddress self preparedOrder));
          ("tokenProgram", Address splToken.TOKEN_PROGRAM_ID)]).

Definition consumePreparedFillIx (accounts : ConsumePreparedFill.accounts)
  : Async TransactionInstruction :=
  let preparedFill := ConsumePreparedFill.preparedFill accounts in
  let redeemer := ConsumePreparedFill.redeemer accounts in
  let dstToken := ConsumePreparedFill.dstToken accounts in
  let beneficiary := ConsumePreparedFill.beneficiary accounts in
  ret (MethodsInstruction "consumePreparedFill" NoArgs
         [("redeemer", Address redeemer);
          ("beneficiary", Address beneficiary);
          ("preparedFill", Address preparedFill);
          ("dstToken", Address dstToken);
          ("preparedCustodyToken", Address (preparedCustodyTokenAddress self preparedFill));
          ("tokenProgram", Address splToken.TOKEN_PROGRAM_ID)]).

(** The first block runs unless both [preparedBy] and [targetChain] are
    given; [routerEndpoint ??= ...] derives the endpoint only when none is
    given. *)
Definition placeMarketOrderCctpIx (accounts : PlaceMarketOrderCctp.accounts)
    (args : PlaceMarketOrderCctp.args) : Async TransactionInstruction :=
  let payer := PlaceMarketOrderCctp.payer accounts in
  let preparedOrder := PlaceMarketOrderCctp.preparedOrder accounts in
  let preparedBy := PlaceMarketOrderCctp.preparedBy accounts in
  let routerEndpoint := PlaceMarketOrderCctp.routerEndpoint accounts in
  let targetChain := PlaceMarketOrderCctp.targetChain args in
  let destinationDomain := PlaceMarketOrderCctp.destinationDomain args in
  '(preparedBy, targetChain) <-
    match preparedBy, targetChain with
    | Some p, Some t => ret (p, t)
    | _, _ =>
        stored <- catch (fetchPreparedOrder self preparedOrder)
                        (fun _ => throw (Error "Cannot find prepared order"));;
        let preparedBy := orElse preparedBy (PreparedOrderInfo.preparedBy (info stored)) in
        if negb (isChainId (PreparedOrderInfo.targetChain (info stored)))
        then throw (Error "Invalid chain found in prepared order")
        else ret (preparedBy,
                  orElse targetChain (PreparedOrderInfo.targetChain (info stored)))
    end;;
  matchingEngine <- lift (matchingEngineProgram self);;
  routerEndpoint <-
    match routerEndpoint with
    | Some given => ret given
    | None =>
        _ <- emit (DeriveRouterEndpoint targetChain);;
        ret (routerEndpointAddress matchingEngine targetChain)
    end;;
  let coreMessage := coreMessageAddress self preparedOrder in
  let cctpMessage := cctpMessageAddress self preparedOrder in
  destinationDomain <-
    match destinationDomain with
    | Some given => ret given
    | None =>
        endpoint <- fetchRouterEndpointInfo matchingEngine routerEndpoint;;
        match cctp (protocol endpoint) with
        | None => throw (Error "invalid router endpoint")
        | Some variant => ret (domain variant)
        end
    end;;
  _ <- emit (ComposeBurnAccounts (mint self) destinationDomain);;
  let burn :=
    depositForBurnWithCallerAccounts
      (tokenMessengerMinterProgram self) (mint self) destinationDomain in
  let custodian := custodianAddress self in
  publish <- lift (publishMessageAccounts self custodian);;
  ret (MethodsInstruction "placeMarketOrderCctp" NoArgs
         [("payer", Address payer);
          ("preparedBy", Address preparedBy);
          ("custodian", checkedCustodianComposite self None);
          ("preparedOrder", Address preparedOrder);
          ("mint", Address (mint self));
          ("preparedCustodyToken", Address (preparedCustodyTokenAddress self preparedOrder));
          ("routerEndpoint", Address routerEndpoint);
          ("coreBridgeConfig", Address (coreBridgeConfig publish));
          ("coreMessage", Address coreMessage);
          ("cctpMessage", Address cctpMessage);
          ("coreEmitterSequence", Address (coreEmitterSequence publish));
          ("coreFeeCollector", Address (coreFeeCollector publish));
          ("tokenMessengerMinterSenderAuthority", Address (senderAuthority burn));
          ("messageTransmitterConfig", Address (messageTransmitterConfig burn));
          ("tokenMessenger", Address (tokenMessenger burn));
          ("remoteTokenMessenger", Address (remoteTokenMessenger burn));
          ("tokenMinter", Address (tokenMinter burn));
          ("localToken", Address (localToken burn));
          ("tokenMessengerMinterEventAuthority",
           Address (tokenMessengerMinterEventAuthority burn));
          ("coreBridgeProgram", Address (coreBridgeProgram publish));
          ("tokenMessengerMinterProgram", Address (tokenMessengerMinterProgramId burn));
          ("messageTransmitterProgram", Address (messageTransmitterProgramId burn));
          ("tokenProgram", Address splToken.TOKEN_PROGRAM_ID);
          ("systemProgram", Address SystemProgram_programId);
          ("rent", Address SYSVAR_RENT_PUBKEY);
          ("clock", Address SYSVAR_CLOCK_PUBKEY)]).

End Builders.

(** ** The data model of the specification *)

Definition u64 (v : Z) : bool := (0 <=? v) && (v <? 2 ^ 64).

Definition u16 (v : Z) : bool := (0 <=? v) && (v <=? 65535).

Definition octet (v : Z) : bool := (0 <=? v) && (v <? 256).

(** The numeric fields fit their wire widths. *)
Definition encodable (args : PrepareMarketOrderArgs) : bool :=
  u64 (amountIn args)
  && match minAmountOut args with
     | Some m => u64 m
     | None => true
     end
  && u16 (targetChain args).

(** [OrderParameters] of the data model: u64 amounts, a u16 chain and a
    redeemer of 32 octets. *)
Definition OrderParameters (args : PrepareMarketOrderArgs) : bool :=
  encodable args
  && Nat.eqb (List.length (redeemer args)) 32
  && forallb octet (redeemer args).

(** The same order with another [minAmountOut]. *)
Definition withMinAmountOut (args : PrepareMarketOrderArgs) (m : option Z)
  : PrepareMarketOrderArgs :=
  {| amountIn := amountIn args;
     minAmountOut := m;
     targetChain := targetChain args;
     redeemer := redeemer args;
     redeemerMessage := redeemerMessage args |}.

(** What the hasher has absorbed when [transferAuthorityAddress] asks for
    the digest. *)
Definition digestInput (args : PrepareMarketOrderArgs) : Buffer :=
  be_bytes 8 (amountIn args)
  ++ match minAmountOut args with
     | Some m => be_bytes 8 m
     | None => []
     end
  ++ be_bytes 2 (targetChain args)
  ++ from_array (redeemer args)
  ++ redeemerMessage args.

(** The owner an approval is issued for: the given authority, else the
    owner recorded in the sender's token account. *)
Definition delegatingOwner (connection : Connection) (senderToken : PublicKey)
    (senderTokenAuthority : option PublicKey) : option PublicKey :=
  match senderTokenAuthority with
  | Some given => Some given
  | None => option_map owner (tokenAccountAt connection senderToken)
  end.



(** The blocks of [placeMarketOrderCctpIx], named so that the proofs can
    follow the method one block at a time (see
    [placeMarketOrderCctpIx_blocks]). *)
Definition resolvePreparedOrder {C : Collaborators} (self : TokenRouterProgram)
    (preparedOrder : PublicKey) (preparedBy : option PublicKey)
    (targetChain : option Z) : Async (PublicKey * Z) :=
  match preparedBy, targetChain with
  | Some p, Some t => ret (p, t)
  | _, _ =>
      stored <- catch (fetchPreparedOrder self preparedOrder)
                      (fun _ => throw (Error "Cannot find prepared order"));;
      let preparedBy := orElse preparedBy (PreparedOrderInfo.preparedBy (info stored)) in
      if negb (isChainId (PreparedOrderInfo.targetChain (info stored)))
      then throw (Error "Invalid chain found in prepared order")
      else ret (preparedBy,
                orElse targetChain (PreparedOrderInfo.targetChain (info stored)))
  end.

Definition resolveRouterEndpoint {C : Collaborators}
    (matchingEngine : MatchingEngineProgram) (routerEndpoint : option PublicKey)
    (targetChain : Z) : Async PublicKey :=
  match routerEndpoint with
  | Some given => ret given
  | None =>
      _ <- emit (DeriveRouterEndpoint targetChain);;
      ret (routerEndpointAddress matchingEngine targetChain)
  end.

Definition resolveDestinationDomain (matchingEngine : MatchingEngineProgram)
    (routerEndpoint : PublicKey) (destinationDomain : option Z) : Async Z :=
  match destinationDomain with
  | Some given => ret given
  | None =>
      endpoint <- fetchRouterEndpointInfo matchingEngine routerEndpoint;;
      match cctp (protocol endpoint) with
      | None => throw (Error "invalid router endpoint")
      | Some variant => ret (domain variant)
      end
  end.

(** The events that can precede the resolution of the destination domain. *)
Definition orderStage (ev : Event) : bool :=
  match ev with
  | ReadPreparedOrder _ | DeriveRouterEndpoint _ => true
  | _ => false
  end.

(** The roles of [placeMarketOrderCctp] that are filled from the burn
    accounts of the token-messenger-minter collaborator. *)
Definition burnRoles (burn : DepositForBurnWithCallerAccounts) : Accounts :=
  [("tokenMessengerMinterSenderAuthority", Address (senderAuthority burn));
   ("messageTransmitterConfig", Address (messageTransmitterConfig burn));
   ("tokenMessenger", Address (tokenMessenger burn));
   ("remoteTokenMessenger", Address (remoteTokenMessenger burn));
   ("tokenMinter", Address (tokenMinter burn));
   ("localToken", Address (localToken burn));
   ("tokenMessengerMinterEventAuthority",
    Address (tokenMessengerMinterEventAuthority burn));
   ("tokenMessengerMinterProgram", Address (tokenMessengerMinterProgramId burn));
   ("messageTransmitterProgram", Address (messageTransmitterProgramId burn))].

(** The dependent-program ids a client resolves, gathered in one table. *)
Record DependentPrograms : Type := {
  dp_coreBridge : PublicKey;
  dp_upgradeManager : string;
  dp_matchingEngine : string;
  dp_tokenMessengerMinter : string;
  dp_messageTransmitter : string
}.

Definition dependentPrograms {C : Collaborators} (self : TokenRouterProgram)
  : result DependentPrograms :=
  coreBridge <- coreBridgeProgramId self;;
  upgradeManager <- upgradeManagerProgram self;;
  matchingEngine <- matchingEngineProgram self;;
  ret {| dp_coreBridge := coreBridge;
         dp_upgradeManager := um_programId upgradeManager;
         dp_matchingEngine := me_programId matchingEngine;
         dp_tokenMessengerMinter := tmm_programId (tokenMessengerMinterProgram self);
         dp_messageTransmitter := mt_programId (messageTransmitterProgram self) |}.

(** No id of one table occurs at the same place in the other. *)
Definition every_dependent_program_differs (a b : DependentPrograms) : Prop :=
  dp_coreBridge a <> dp_coreBridge b /\
  dp_upgradeManager a <> dp_upgradeManager b /\
  dp_matchingEngine a <> dp_matchingEngine b /\
  dp_tokenMessengerMinter a <> dp_tokenMessengerMinter b /\
  dp_messageTransmitter a <> dp_messageTransmitter b.

(** ** A closed instance of the collaborators

    An idealised instance on which the statements below are exercised: the
    hash keeps its preimage and a derived address keeps its framed seeds. *)

Module Scenario.

(** Seeds framed so that the sequence can be read back: every octet is
    preceded by [x01], every seed closed by [x00]. *)
Definition frame_seed (seed : Buffer) : Buffer :=
  flat_map (fun b => [x01; b]) seed ++ [x00].

Definition frame (seeds : list Buffer) : Buffer := flat_map frame_seed seeds.

Definition derive (seeds : list Buffer) (programId : PublicKey) : PublicKey * Z :=
  (mkPublicKey (frame seeds ++ toBuffer programId), 255).

Definition burnAccounts (tmm : TokenMessengerMinterProgram) (mint : PublicKey)
    (destinationDomain : Z) : DepositForBurnWithCallerAccounts :=
  let tmmId := PublicKey_of_literal (tmm_programId tmm) in
  let mtId := PublicKey_of_literal "CCTPmbSD7gX1bxKPAmg77w8oFzNFpaQiQUWD43TKaecd" in
  let at_ tag extra := fst (derive (from_string tag :: extra) tmmId) in
  {| senderAuthority := at_ "sender_authority" [];
     messageTransmitterConfig := fst (derive [from_string "message_transmitter"] mtId);
     tokenMessenger := at_ "token_messenger" [];
     remoteTokenMessenger :=
       at_ "remote_token_messenger" [be_bytes 4 destinationDomain];
     tokenMinter := at_ "token_minter" [];
     localToken := at_ "local_token" [toBuffer mint];
     tokenMessengerMinterEventAuthority := at_ "__event_authority" [];
     messageTransmitterProgramId := mtId;
     tokenMessengerMinterProgramId := tmmId |}.

#[export] Instance ideal : Collaborators := {
  keccak256 := fun data => data;
  uint64ToBN_outside := fun _ => Throw (RangeError "ERR_OUT_OF_RANGE");
  findProgramAddressSync := derive;
  isOnCurve := fun _ => false;
  isChainId := fun chain => existsb (Z.eqb chain) [1; 2; 6; 23; 24; 30];
  common_coreMessageAddress := fun programId order =>
    fst (derive [from_string "core-msg"; toBuffer order] programId);
  common_cctpMessageAddress := fun programId order =>
    fst (derive [from_string "cctp-msg"; toBuffer order] programId);
  matchingEngineSdk_localnet := "MatchingEngine11111111111111111111111111111";
  matchingEngineSdk_testnet := "mPydpGUWxzERTNpyvTKdvS7v8kvw5sgwfiP8WQFrXVS";
  routerEndpointAddress := fun engine chain =>
    fst (derive [from_string "endpoint"; be_bytes 2 chain]
                (PublicKey_of_literal (me_programId engine)));
  depositForBurnWithCallerAccounts := burnAccounts
}.

Definition key (n : Z) : PublicKey := mkPublicKey (be_bytes 32 n).

Definition usdc : PublicKey := key 1000.
Definition alice : PublicKey := key 1.
Definition aliceToken : PublicKey := key 2.
Definition orderAccount : PublicKey := key 3.
Definition strayOrder : PublicKey := key 4.
Definition endpointAccount : PublicKey := key 5.
Definition localEndpoint : PublicKey := key 6.
Definition bob : PublicKey := key 7.
Definition bobToken : PublicKey := key 8.
Definition fillAccount : PublicKey := key 9.
Definition carol : PublicKey := key 10.

Definition sameKey (a b : PublicKey) : bool :=
  Z.eqb (be_value (toBuffer a)) (be_value (toBuffer b)).

(** A ledger holding one order for a recognised chain, one for an
    unknown chain, a CCTP endpoint and a non-CCTP endpoint. *)
Definition ledger : Connection := {|
  preparedOrderAt := fun addr =>
    if sameKey addr orderAccount then
      Some {| info := {| PreparedOrderInfo.orderSender := alice;
                         PreparedOrderInfo.preparedBy := bob;
                         PreparedOrderInfo.refundToken := aliceToken;
                         PreparedOrderInfo.targetChain := 2 |} |}
    else if sameKey addr strayOrder then
      Some {| info := {| PreparedOrderInfo.orderSender := alice;
                         PreparedOrderInfo.preparedBy := bob;
                         PreparedOrderInfo.refundToken := aliceToken;
                         PreparedOrderInfo.targetChain := 65000 |} |}
    else None;
  routerEndpointAt := fun addr =>
    if sameKey addr endpointAccount then
      Some {| protocol := {| cctp := Some {| domain := 0 |} |} |}
    else if sameKey addr localEndpoint then
      Some {| protocol := {| cctp := None |} |}
    else None;
  tokenAccountAt := fun addr =>
    if sameKey addr aliceToken then Some {| owner := alice |} else None
|}.

(** A valid key that names no known network. *)
Definition foreign : string := "TokenkegQfeZyiNwAJbNbGKPFXCWuBvf9Ss623VQ5DA".

Definition client (programId : string) : TokenRouterProgram :=
  {| _programId := programId;
     _mint := usdc;
     program_programId := PublicKey_of_literal programId;
     program_connection := ledger |}.

Definition order100 : PrepareMarketOrderArgs :=
  {| amountIn := 5000;
     minAmountOut := Some 100;
     targetChain := 2;
     redeemer := repeat 7 32;
     redeemerMessage := from_string "hello" |}.

Definition approveAccounts : ApproveTransferAuthority.accounts :=
  {| ApproveTransferAuthority.preparedOrder := orderAccount;
     ApproveTransferAuthority.senderToken := aliceToken;
     ApproveTransferAuthority.senderTokenAuthority := None |}.


Definition prepareArgs (flag : option bool) : PrepareMarketOrder.args :=
  {| PrepareMarketOrder.useTransferAuthority := flag;
     PrepareMarketOrder.order := order100 |}.

Definition closeAccounts (given : option PublicKey) : ClosePreparedOrder.accounts :=
  {| ClosePreparedOrder.preparedOrder := orderAccount;
     ClosePreparedOrder.preparedBy := given;
     ClosePreparedOrder.orderSender := Some alice;
     ClosePreparedOrder.refundToken := given |}.

Definition placeAccounts (order : PublicKey) (endpoint : option PublicKey)
  : PlaceMarketOrderCctp.accounts :=
  {| PlaceMarketOrderCctp.payer := alice;
     PlaceMarketOrderCctp.preparedOrder := order;
     PlaceMarketOrderCctp.preparedBy := None;
     PlaceMarketOrderCctp.routerEndpoint := endpoint |}.

Definition placeArgs (chain domain : option Z) : PlaceMarketOrderCctp.args :=
  {| PlaceMarketOrderCctp.targetChain := chain;
     PlaceMarketOrderCctp.destinationDomain := domain |}.

End Scenario.

(** ** Variants of an order *)

(** The same order with another redeemer and redeemer message. *)
Definition withRedeemer (args : PrepareMarketOrderArgs) (r : list Z)
    (message : Buffer) : PrepareMarketOrderArgs :=
  {| amountIn := amountIn args;
     minAmountOut := minAmountOut args;
     targetChain := targetChain args;
     redeemer := r;
     redeemerMessage := message |}.

(** An order with no [minAmountOut] whose later fields are cut out of what
    an order with [minAmountOut = m] feeds to the hasher after [amountIn]:
    two octets for the chain, the next 32 for the redeemer, the rest in
    front of the message. *)
Definition absorbMinimum (args : PrepareMarketOrderArgs) (m : Z)
  : PrepareMarketOrderArgs :=
  let fed := be_bytes 8 m ++ be_bytes 2 (targetChain args)
             ++ from_array (redeemer args) in
  {| amountIn := amountIn args;
     minAmountOut := None;
     targetChain := be_value (firstn 2 fed);
     redeemer := map Z_of_byte (firstn 32 (skipn 2 fed));
     redeemerMessage := skipn 34 fed ++ redeemerMessage args |}.

(** ** Further methods of the client *)

(** The address functions of the counterpart program clients and of the
    utilities module that the remaining methods consume by interface. *)
Class Counterparts : Type := {
  tmm_ID : TokenMessengerMinterProgram -> PublicKey;
  tmm_tokenMessengerAddress : TokenMessengerMinterProgram -> PublicKey;
  tmm_tokenMinterAddress : TokenMessengerMinterProgram -> PublicKey;
  tmm_senderAuthorityAddress : TokenMessengerMinterProgram -> PublicKey;
  tmm_localTokenAddress : TokenMessengerMinterProgram -> PublicKey -> PublicKey;
  tmm_custodyTokenAddress : TokenMessengerMinterProgram -> PublicKey -> PublicKey;
  mt_ID : MessageTransmitterProgram -> PublicKey;
  mt_authorityAddress : MessageTransmitterProgram -> PublicKey -> PublicKey;
  mt_messageTransmitterConfigAddress : MessageTransmitterProgram -> PublicKey;
  me_ID : MatchingEngineProgram -> PublicKey;
  me_custodianAddress : MatchingEngineProgram -> PublicKey;
  me_cctpMintRecipientAddress : MatchingEngineProgram -> PublicKey;
  um_ID : UpgradeManagerProgram -> PublicKey;
  um_upgradeAuthorityAddress : UpgradeManagerProgram -> PublicKey;
  programDataAddress : PublicKey -> PublicKey;
  BPF_LOADER_UPGRADEABLE_PROGRAM_ID : PublicKey
}.

Module Common.
(** [TokenRouterCommonAccounts]. *)
Record accounts : Type := {
  tokenRouterProgram : PublicKey;
  systemProgram : PublicKey;
  rent : PublicKey;
  clock : PublicKey;
  custodian : PublicKey;
  cctpMintRecipient : PublicKey;
  coreBridgeConfig : PublicKey;
  coreEmitterSequence : PublicKey;
  coreFeeCollector : PublicKey;
  coreBridgeProgram : PublicKey;
  tokenMessenger : PublicKey;
  tokenMinter : PublicKey;
  tokenMessengerMinterSenderAuthority : PublicKey;
  tokenMessengerMinterProgram : PublicKey;
  messageTransmitterAuthority : PublicKey;
  messageTransmitterConfig : PublicKey;
  messageTransmitterProgram : PublicKey;
  tokenProgram : PublicKey;
  mint : PublicKey;
  localToken : PublicKey;
  tokenMessengerMinterCustodyToken : PublicKey;
  matchingEngineProgram : PublicKey;
  matchingEngineCustodian : PublicKey;
  matchingEngineCctpMintRecipient : PublicKey
}.
End Common.

Module Initialize.
Record accounts : Type := {
  owner : PublicKey;
  ownerAssistant : PublicKey;
  mint : option PublicKey
}.
End Initialize.

Module SubmitOwnershipTransfer.
Record accounts : Type := {
  owner : PublicKey;
  newOwner : PublicKey;
  custodian : option PublicKey
}.
End SubmitOwnershipTransfer.

Module ConfirmOwnershipTransfer.
Record accounts : Type := {
  pendingOwner : PublicKey;
  custodian : option PublicKey
}.
End ConfirmOwnershipTransfer.

Module CancelOwnershipTransfer.
Record accounts : Type := {
  owner : PublicKey;
  custodian : option PublicKey
}.
End CancelOwnershipTransfer.

Module UpdateOwnerAssistant.
Record accounts : Type := {
  owner : PublicKey;
  newOwnerAssistant : PublicKey;
  custodian : option PublicKey
}.
End UpdateOwnerAssistant.

Section FurtherMethods.

Context {C : Collaborators} {P : Counterparts}.
Variable self : TokenRouterProgram.

Definition commonAccounts : Async Common.accounts :=
  let custodian := custodianAddress self in
  publish <- lift (publishMessageAccounts self custodian);;
  let tokenMessengerMinterProgram := tokenMessengerMinterProgram self in
  let messageTransmitterProgram := messageTransmitterProgram self in
  cctpMintRecipient <- lift (cctpMintRecipientAddress self);;
  let mint := mint self in
  matchingEngine <- lift (matchingEngineProgram self);;
  ret {| Common.tokenRouterProgram := ID self;
         Common.systemProgram := SystemProgram_programId;
         Common.rent := SYSVAR_RENT_PUBKEY;
         Common.clock := SYSVAR_CLOCK_PUBKEY;
         Common.custodian := custodian;
         Common.cctpMintRecipient := cctpMintRecipient;
         Common.coreBridgeConfig := coreBridgeConfig publish;
         Common.coreEmitterSequence := coreEmitterSequence publish;
         Common.coreFeeCollector := coreFeeCollector publish;
         Common.coreBridgeProgram := coreBridgeProgram publish;
         Common.tokenMessenger :=
           tmm_tokenMessengerAddress tokenMessengerMinterProgram;
         Common.tokenMinter := tmm_tokenMinterAddress tokenMessengerMinterProgram;
         Common.tokenMessengerMinterSenderAuthority :=
           tmm_senderAuthorityAddress tokenMessengerMinterProgram;
         Common.tokenMessengerMinterProgram := tmm_ID tokenMessengerMinterProgram;
         Common.messageTransmitterAuthority :=
           mt_authorityAddress messageTransmitterProgram
             (tmm_ID tokenMessengerMinterProgram);
         Common.messageTransmitterConfig :=
           mt_messageTransmitterConfigAddress messageTransmitterProgram;
         Common.messageTransmitterProgram := mt_ID messageTransmitterProgram;
         Common.tokenProgram := splToken.TOKEN_PROGRAM_ID;
         Common.mint := mint;
         Common.localToken :=
           tmm_localTokenAddress tokenMessengerMinterProgram mint;
         Common.tokenMessengerMinterCustodyToken :=
           tmm_custodyTokenAddress tokenMessengerMinterProgram mint;
         Common.matchingEngineProgram := me_ID matchingEngine;
         Common.matchingEngineCustodian := me_custodianAddress matchingEngine;
         Common.matchingEngineCctpMintRecipient :=
           me_cctpMintRecipientAddress matchingEngine |}.

Definition adminComposite (ownerOrAssistant : PublicKey)
    (custodian : option PublicKey) : AccountValue :=
  Composite [("ownerOrAssistant", Address ownerOrAssistant);
             ("custodian", checkedCustodianComposite self custodian)].

Definition adminMutComposite (ownerOrAssistant : PublicKey)
    (custodian : option PublicKey) : AccountValue :=
  Composite [("ownerOrAssistant", Address ownerOrAssistant);
             ("custodian", Address (orElse custodian (custodianAddress self)))].

Definition ownerOnlyComposite (owner : PublicKey)
    (custodian : option PublicKey) : AccountValue :=
  Composite [("owner", Address owner);
             ("custodian", checkedCustodianComposite self custodian)].

Definition ownerOnlyMutComposite (owner : PublicKey)
    (custodian : option PublicKey) : AccountValue :=
  Composite [("owner", Address owner);
             ("custodian", Address (orElse custodian (custodianAddress self)))].

Definition liquidityLayerVaaComposite (vaa : PublicKey) : AccountValue :=
  Composite [("vaa", Address vaa)].

Definition initIfNeededPreparedFillComposite
    (payer vaa preparedFill : PublicKey) : AccountValue :=
  Composite [("payer", Address payer);
             ("fillVaa", liquidityLayerVaaComposite vaa);
             ("preparedFill", Address preparedFill);
             ("custodyToken", Address (preparedCustodyTokenAddress self preparedFill));
             ("usdc", usdcComposite self None);
             ("tokenProgram", Address splToken.TOKEN_PROGRAM_ID);
             ("systemProgram", Address SystemProgram_programId)].

Definition initializeIx (accounts : Initialize.accounts)
  : Async TransactionInstruction :=
  let owner := Initialize.owner accounts in
  let ownerAssistant := Initialize.ownerAssistant accounts in
  let inputMint := Initialize.mint accounts in
  upgradeManager <- lift (upgradeManagerProgram self);;
  cctpMintRecipient <- lift (cctpMintRecipientAddress self);;
  ret (MethodsInstruction "initialize" NoArgs
         [("owner", Address owner);
          ("custodian", Address (custodianAddress self));
          ("ownerAssistant", Address ownerAssistant);
          ("mint", usdcComposite self inputMint);
          ("cctpMintRecipient", Address cctpMintRecipient);
          ("programData", Address (programDataAddress (ID self)));
          ("upgradeManagerAuthority",
           Address (um_upgradeAuthorityAddress upgradeManager));
          ("upgradeManagerProgram", Address (um_ID upgradeManager));
          ("bpfLoaderUpgradeableProgram", Address BPF_LOADER_UPGRADEABLE_PROGRAM_ID);
          ("associatedTokenProgram", Address splToken.ASSOCIATED_TOKEN_PROGRAM_ID);
          ("tokenProgram", Address splToken.TOKEN_PROGRAM_ID);
          ("systemProgram", Address SystemProgram_programId)]).

Definition submitOwnershipTransferIx (accounts : SubmitOwnershipTransfer.accounts)
  : Async TransactionInstruction :=
  let owner := SubmitOwnershipTransfer.owner accounts in
  let newOwner := SubmitOwnershipTransfer.newOwner accounts in
  let inputCustodian := SubmitOwnershipTransfer.custodian accounts in
  ret (MethodsInstruction "submitOwnershipTransferRequest" NoArgs
         [("admin", ownerOnlyMutComposite owner inputCustodian);
          ("newOwner", Address newOwner)]).

Definition confirmOwnershipTransferIx (accounts : ConfirmOwnershipTransfer.accounts)
  : Async TransactionInstruction :=
  let pendingOwner := ConfirmOwnershipTransfer.pendingOwner accounts in
  let inputCustodian := ConfirmOwnershipTransfer.custodian accounts in
  ret (MethodsInstruction "confirmOwnershipTransferRequest" NoArgs
         [("pendingOwner", Address pendingOwner);
          ("custodian", Address (orElse inputCustodian (custodianAddress self)))]).

Definition cancelOwnershipTransferIx (accounts : CancelOwnershipTransfer.accounts)
  : Async TransactionInstruction :=
  let owner := CancelOwnershipTransfer.owner accounts in
  let inputCustodian := CancelOwnershipTransfer.custodian accounts in
  ret (MethodsInstruction "cancelOwnershipTransferRequest" NoArgs
         [("admin", ownerOnlyMutComposite owner inputCustodian)]).

Definition updateOwnerAssistantIx (accounts : UpdateOwnerAssistant.accounts)
  : Async TransactionInstruction :=
  let owner := UpdateOwnerAssistant.owner accounts in
  let newOwnerAssistant := UpdateOwnerAssistant.newOwnerAssistant accounts in
  let inputCustodian := UpdateOwnerAssistant.custodian accounts in
  ret (MethodsInstruction "updateOwnerAssistant" NoArgs
         [("admin", ownerOnlyMutComposite owner inputCustodian);
          ("newOwnerAssistant", Address newOwnerAssistant)]).

End FurtherMethods.

(** The account at [path] inside nested groups of accounts. *)
Fixpoint accountAt (path : list string) (v : AccountValue) : option AccountValue :=
  match path with
  | [] => Some v
  | role :: rest =>
      match v with
      | Composite fields =>
          match account role fields with
          | Some inner => accountAt rest inner
          | None => None
          end
      | _ => None
      end
  end.

Module Counterpart.

(** A closed instance of the counterparts, in the style of
    [Scenario.ideal]: every address is derived from a tag under the
    program's own id. *)
#[export] Instance ideal : Counterparts :=
  let under (programId tag : string) (extra : list Buffer) : PublicKey :=
    fst (Scenario.derive (from_string tag :: extra)
                         (PublicKey_of_literal programId)) in
  {| tmm_ID := fun p => PublicKey_of_literal (tmm_programId p);
     tmm_tokenMessengerAddress := fun p => under (tmm_programId p) "token_messenger" [];
     tmm_tokenMinterAddress := fun p => under (tmm_programId p) "token_minter" [];
     tmm_senderAuthorityAddress := fun p => under (tmm_programId p) "sender_authority" [];
     tmm_localTokenAddress := fun p m =>
       under (tmm_programId p) "local_token" [toBuffer m];
     tmm_custodyTokenAddress := fun p m =>
       under (tmm_programId p) "custody" [toBuffer m];
     mt_ID := fun p => PublicKey_of_literal (mt_programId p);
     mt_authorityAddress := fun p c =>
       under (mt_programId p) "message_transmitter_authority" [toBuffer c];
     mt_messageTransmitterConfigAddress := fun p =>
       under (mt_programId p) "message_transmitter" [];
     me_ID := fun p => PublicKey_of_literal (me_programId p);
     me_custodianAddress := fun p => under (me_programId p) "emitter" [];
     me_cctpMintRecipientAddress := fun p =>
       under (me_programId p) "custody" [toBuffer (me_mint p)];
     um_ID := fun p => PublicKey_of_literal (um_programId p);
     um_upgradeAuthorityAddress := fun p => under (um_programId p) "upgrade" [];
     programDataAddress := fun programId =>
       fst (Scenario.derive [toBuffer programId]
              (PublicKey_of_literal "BPFLoaderUpgradeab1e11111111111111111111111"));
     BPF_LOADER_UPGRADEABLE_PROGRAM_ID :=
       PublicKey_of_literal "BPFLoaderUpgradeab1e11111111111111111111111" |}.

End Counterpart.

Module Cases.

Import Scenario.

(** [order100] with every redeemer entry raised by 256. *)
Definition order100_wide : PrepareMarketOrderArgs :=
  withRedeemer order100 (repeat 263 32) (redeemerMessage order100).

(** [order100] for a chain that does not fit 16 bits. *)
Definition order100_far : PrepareMarketOrderArgs :=
  {| amountIn := amountIn order100;
     minAmountOut := minAmountOut order100;
     targetChain := 70000;
     redeemer := redeemer order100;
     redeemerMessage := redeemerMessage order100 |}.

(** [order100] with another minimum. *)
Definition order200 : PrepareMarketOrderArgs :=
  withMinAmountOut order100 (Some 200).

Definition prepareWithNullAuthority : PrepareMarketOrder.accounts :=
  {| PrepareMarketOrder.payer := alice;
     PrepareMarketOrder.preparedOrder := orderAccount;
     PrepareMarketOrder.senderToken := aliceToken;
     PrepareMarketOrder.senderTokenAuthority := None;
     PrepareMarketOrder.refundToken := None;
     PrepareMarketOrder.programTransferAuthority := Some null;
     PrepareMarketOrder.sender := None |}.

(** [bobToken] holds no token account on the ledger. *)
Definition prepareFromBob : PrepareMarketOrder.accounts :=
  {| PrepareMarketOrder.payer := bob;
     PrepareMarketOrder.preparedOrder := orderAccount;
     PrepareMarketOrder.senderToken := bobToken;
     PrepareMarketOrder.senderTokenAuthority := None;
     PrepareMarketOrder.refundToken := None;
     PrepareMarketOrder.programTransferAuthority := None;
     PrepareMarketOrder.sender := None |}.

(** No prepared order is stored at [fillAccount]. *)
Definition closeUnknown : ClosePreparedOrder.accounts :=
  {| ClosePreparedOrder.preparedOrder := fillAccount;
     ClosePreparedOrder.preparedBy := None;
     ClosePreparedOrder.orderSender := Some alice;
     ClosePreparedOrder.refundToken := Some aliceToken |}.

Definition placeGiven (endpoint : option PublicKey) : PlaceMarketOrderCctp.accounts :=
  {| PlaceMarketOrderCctp.payer := alice;
     PlaceMarketOrderCctp.preparedOrder := fillAccount;
     PlaceMarketOrderCctp.preparedBy := Some bob;
     PlaceMarketOrderCctp.routerEndpoint := endpoint |}.

End Cases.

(** * Properties *)

(** ** Buffers and encodings *)

Section BufferFacts.

Context {C : Collaborators}.

Lemma Z_of_byte_of_Z (z : Z) : Z_of_byte (byte_of_Z z) = z mod 256.
Proof.
  unfold Z_of_byte, byte_of_Z.
  assert (Hland : Z.land z 255 = z mod 256) by (apply (Z.land_ones z 8); lia).
  assert (Hrange : 0 <= z mod 256 < 256) by (apply Z.mod_pos_bound; lia).
  rewrite Hland.
  destruct (Byte.of_N (Z.to_N (z mod 256))) as [b|] eqn:Hb.
  - apply Byte.to_of_N in Hb. rewrite Hb. apply Z2N.id. lia.
  - apply Byte.of_N_None_iff in Hb. lia.
Qed.

Lemma Z_of_byte_octet (z : Z) : octet z = true -> Z_of_byte (byte_of_Z z) = z.
Proof.
  unfold octet. intros H. rewrite Z_of_byte_of_Z. apply Z.mod_small. lia.
Qed.

Lemma length_be_bytes (n : nat) (v : Z) : List.length (be_bytes n v) = n.
Proof. induction n as [|n IH]; simpl; [reflexivity | now rewrite IH]. Qed.

Lemma fold_be_bytes (n : nat) (v acc : Z) :
  fold_left (fun a x => a * 256 + Z_of_byte x) (be_bytes n v) acc
  = acc * 256 ^ Z.of_nat n + v mod 256 ^ Z.of_nat n.
Proof.
  revert acc. induction n as [|n IH]; intros acc.
  - simpl. rewrite Z.mod_1_r. lia.
  - cbn [be_bytes fold_left]. rewrite IH, Z_of_byte_of_Z.
    rewrite Z.shiftr_div_pow2 by lia.
    replace (2 ^ (8 * Z.of_nat n)) with (256 ^ Z.of_nat n)
      by (rewrite (Z.pow_mul_r 2 8) by lia; reflexivity).
    rewrite Nat2Z.inj_succ, Z.pow_succ_r by lia.
    assert (Hpos : 0 < 256 ^ Z.of_nat n) by (apply Z.pow_pos_nonneg; lia).
    rewrite (Z.mul_comm 256 (256 ^ Z.of_nat n)).
    rewrite (Z.rem_mul_r v (256 ^ Z.of_nat n) 256) by lia.
    lia.
Qed.

(** Reading back a big-endian encoding gives the number, reduced to the
    width written. *)
Lemma be_value_be_bytes (n : nat) (v : Z) :
  be_value (be_bytes n v) = v mod 256 ^ Z.of_nat n.
Proof. unfold be_value. rewrite fold_be_bytes. lia. Qed.

Lemma be_value_u64 (v : Z) : u64 v = true -> be_value (be_bytes 8 v) = v.
Proof.
  unfold u64. intros H. rewrite be_value_be_bytes.
  apply Z.mod_small. change (256 ^ Z.of_nat 8) with (2 ^ 64). lia.
Qed.

Lemma be_value_u16 (v : Z) : u16 v = true -> be_value (be_bytes 2 v) = v.
Proof.
  unfold u16. intros H. rewrite be_value_be_bytes.
  apply Z.mod_small. change (256 ^ Z.of_nat 2) with 65536. lia.
Qed.

Lemma byte_length_u64 (v : Z) : u64 v = true -> (byte_length v <=? 8)%nat = true.
Proof.
  unfold u64, byte_length. intros H. apply Nat.leb_le.
  destruct (Z.eqb_spec v 0) as [->|Hnz]; [simpl; lia|].
  assert (Hlog : Z.log2 v < 64) by (apply Z.log2_lt_pow2; lia).
  assert (Hlog0 : 0 <= Z.log2 v) by apply Z.log2_nonneg.
  assert (Hdiv : (Z.log2 v + 8) / 8 <= 8).
  { apply Z.lt_succ_r. apply Z.div_lt_upper_bound; lia. }
  assert (Hdiv0 : 0 <= (Z.log2 v + 8) / 8) by (apply Z.div_pos; lia).
  lia.
Qed.

Lemma uint64_buffer (v : Z) :
  u64 v = true ->
  (bn <- uint64ToBN v;; BN_toBuffer_be bn 8) = Ok (be_bytes 8 v).
Proof.
  intros H. unfold uint64ToBN. fold (u64 v). rewrite H. cbn [bind result_monad].
  unfold BN_toBuffer_be. rewrite Z.abs_eq by (unfold u64 in H; lia).
  now rewrite byte_length_u64.
Qed.

Lemma uint16_buffer (v : Z) :
  u16 v = true -> writeUInt16BE (alloc 2) v = Ok (be_bytes 2 v).
Proof.
  intros H. unfold writeUInt16BE. fold (u16 v). rewrite H. reflexivity.
Qed.

Lemma raw_redeemer (a : list Z) :
  forallb octet a = true -> map Z_of_byte (from_array a) = a.
Proof.
  unfold from_array. induction a as [|x a IH]; simpl; intros H; [reflexivity|].
  apply andb_true_iff in H as [Hx Ha].
  now rewrite Z_of_byte_octet, IH.
Qed.

End BufferFacts.

(** ** The transfer authority *)

Section TransferAuthority.

Context {C : Collaborators}.

Lemma encodable_fields (args : PrepareMarketOrderArgs) :
  encodable args = true ->
  u64 (amountIn args) = true /\
  (forall m, minAmountOut args = Some m -> u64 m = true) /\
  u16 (targetChain args) = true.
Proof.
  unfold encodable. intros H.
  apply andb_true_iff in H as [H Hchain].
  apply andb_true_iff in H as [Hamount Hmin].
  repeat split; try assumption.
  intros m Hm. now rewrite Hm in Hmin.
Qed.

(** With fields that fit their widths the method returns, and the digest
    is taken over [digestInput]. *)
Lemma transferAuthorityAddress_digestInput
    (self : TokenRouterProgram) (preparedOrder : PublicKey)
    (args : PrepareMarketOrderArgs) :
  encodable args = true ->
  transferAuthorityAddress self preparedOrder args =
  Ok (fst (findProgramAddressSync
             [from_string "transfer-authority";
              toBuffer preparedOrder;
              keccak256 (digestInput args)]
             (ID self))).
Proof.
  intros H. apply encodable_fields in H as (Hamount & Hmin & Hchain).
  unfold transferAuthorityAddress, digestInput.
  rewrite (uint64_buffer _ Hamount), (uint16_buffer _ Hchain).
  destruct (minAmountOut args) as [m|] eqn:Em.
  - rewrite (uint64_buffer m (Hmin m eq_refl)). cbn [bind result_monad ret].
    unfold Keccak.digest, Keccak.update, Keccak.new. cbn [Keccak.absorbed].
    now rewrite <- !app_assoc.
  - cbn [bind result_monad ret].
    unfold Keccak.digest, Keccak.update, Keccak.new. cbn [Keccak.absorbed].
    now rewrite <- !app_assoc.
Qed.

(** C1. For order parameters of the data model (u64 amounts, u16 chain,
    32-octet redeemer) and every prepared-order address,
    [transferAuthorityAddress] returns the address derived from the seeds
    "transfer-authority", the order address octets and the Keccak digest
    of, in this order: [amountIn] as 8 octets big-endian; [minAmountOut]
    as 8 octets big-endian when it is not null and nothing at all when it
    is; [targetChain] as 2 octets big-endian; the 32 raw redeemer octets;
    the redeemer message. *)
Theorem transferAuthorityAddress_seeds
    (self : TokenRouterProgram) (preparedOrder : PublicKey)
    (args : PrepareMarketOrderArgs) :
  OrderParameters args = true ->
  exists amount minimum chain raw : Buffer,
    List.length amount = 8%nat /\ be_value amount = amountIn args /\
    match minAmountOut args with
    | Some m => List.length minimum = 8%nat /\ be_value minimum = m
    | None => minimum = []
    end /\
    List.length chain = 2%nat /\ be_value chain = targetChain args /\
    List.length raw = 32%nat /\ map Z_of_byte raw = redeemer args /\
    transferAuthorityAddress self preparedOrder args =
    Ok (fst (findProgramAddressSync
               [from_string "transfer-authority";
                toBuffer preparedOrder;
                keccak256 (amount ++ minimum ++ chain ++ raw
                           ++ redeemerMessage args)]
               (ID self))).
Proof.
  unfold OrderParameters. intros H.
  apply andb_true_iff in H as [H Hoctets].
  apply andb_true_iff in H as [Henc Hlen].
  apply Nat.eqb_eq in Hlen.
  pose proof (encodable_fields args Henc) as (Hamount & Hmin & Hchain).
  exists (be_bytes 8 (amountIn args)).
  exists (match minAmountOut args with Some m => be_bytes 8 m | None => [] end).
  exists (be_bytes 2 (targetChain args)).
  exists (from_array (redeemer args)).
  split; [apply length_be_bytes|].
  split; [now apply be_value_u64|].
  split.
  { destruct (minAmountOut args) as [m|] eqn:Em; [|reflexivity].
    split; [apply length_be_bytes | apply be_value_u64; now apply Hmin]. }
  split; [apply length_be_bytes|].
  split; [now apply be_value_u16|].
  split; [unfold from_array; now rewrite length_map|].
  split; [now apply raw_redeemer|].
  now apply transferAuthorityAddress_digestInput.
Qed.



Lemma Buffer_eq_dec (x y : Buffer) : {x = y} + {x <> y}.
Proof. apply list_eq_dec, Byte.byte_eq_dec. Qed.



End TransferAuthority.

(** ** The closed instance derives addresses without collisions *)

Section ScenarioFacts.

Import Scenario.

Lemma frame_seed_split (s1 s2 r1 r2 : Buffer) :
  frame_seed s1 ++ r1 = frame_seed s2 ++ r2 -> s1 = s2 /\ r1 = r2.
Proof.
  unfold frame_seed. revert s2.
  induction s1 as [|a s1 IH]; intros [|b s2] H; simpl in H.
  - injection H as ->. now split.
  - discriminate H.
  - discriminate H.
  - injection H as -> H. apply IH in H as [-> ->]. now split.
Qed.

Lemma frame_inj (l1 l2 : list Buffer) : frame l1 = frame l2 -> l1 = l2.
Proof.
  unfold frame. revert l2.
  induction l1 as [|s1 l1 IH]; intros [|s2 l2] H; simpl in H.
  - reflexivity.
  - unfold frame_seed in H. destruct s2; discriminate H.
  - unfold frame_seed in H. destruct s1; discriminate H.
  - apply frame_seed_split in H as [-> H]. f_equal. now apply IH.
Qed.

Lemma ideal_derive_inj (programId : PublicKey) (s1 s2 : list Buffer) :
  fst (derive s1 programId) = fst (derive s2 programId) -> s1 = s2.
Proof.
  intros H. simpl in H. injection H as H.
  apply app_inv_tail in H. now apply frame_inj.
Qed.

End ScenarioFacts.

(** ** Network selection *)

Section Network.

Context {C : Collaborators}.

Arguments PublicKey_new : simpl never.

Lemma coreBridge_ids_decode :
  exists t l : PublicKey,
    PublicKey_new "3u8hJUVTA4jH1wYAyUur7FFZVQ8H635K3tSHHF4ssjQ5" = Ok t /\
    PublicKey_new "worm2ZoG2kUd4vFXhvjh93UUH596ayRfgQ2MgjNMTth" = Ok l /\
    t <> l.
Proof.
  eexists. eexists.
  split; [vm_compute; reflexivity|].
  split; [vm_compute; reflexivity|].
  intros H. discriminate H.
Qed.

Lemma identity_cases (self : TokenRouterProgram) :
  In (_programId self) PROGRAM_IDS <->
  _programId self = localnet \/ _programId self = testnet.
Proof.
  unfold PROGRAM_IDS, localnet, testnet. simpl.
  split; intros H.
  - destruct H as [H | [H | []]]; [left | right]; now symmetry.
  - destruct H as [H | H]; [left | right; left]; now symmetry.
Qed.

Lemma unknown_identity (self : TokenRouterProgram) :
  ~ In (_programId self) PROGRAM_IDS ->
  String.eqb (_programId self) testnet = false /\
  String.eqb (_programId self) localnet = false.
Proof.
  intros H. split; apply String.eqb_neq; intros E; apply H;
    apply identity_cases; [right | left]; exact E.
Qed.

Lemma localnet_identity (self : TokenRouterProgram) :
  _programId self = localnet ->
  String.eqb (_programId self) testnet = false /\
  String.eqb (_programId self) localnet = true.
Proof. intros ->. split; reflexivity. Qed.

Lemma testnet_identity (self : TokenRouterProgram) :
  _programId self = testnet -> String.eqb (_programId self) testnet = true.
Proof. intros ->. reflexivity. Qed.

(** C5. For every identity outside the fixed set of known program ids the
    upgrade-manager program, the matching-engine program and the
    core-bridge program id all fail with "unsupported network"; for an
    identity inside the set all three resolve, and any client with that
    identity (and the same mint and connection, which the program objects
    carry) resolves to identical results. *)
Theorem network_resolution_fails_closed (self : TokenRouterProgram) :
  (~ In (_programId self) PROGRAM_IDS ->
   upgradeManagerProgram self = Throw (Error "unsupported network") /\
   matchingEngineProgram self = Throw (Error "unsupported network") /\
   coreBridgeProgramId self = Throw (Error "unsupported network")) /\
  (In (_programId self) PROGRAM_IDS ->
   (exists upgradeManager matchingEngine coreBridge,
       upgradeManagerProgram self = Ok upgradeManager /\
       matchingEngineProgram self = Ok matchingEngine /\
       coreBridgeProgramId self = Ok coreBridge) /\
   (forall again : TokenRouterProgram,
       _programId again = _programId self ->
       _mint again = _mint self ->
       program_connection again = program_connection self ->
       upgradeManagerProgram again = upgradeManagerProgram self /\
       matchingEngineProgram again = matchingEngineProgram self /\
       coreBridgeProgramId again = coreBridgeProgramId self)).
Proof.
  split.
  - intros H. apply unknown_identity in H as [Ht Hl].
    unfold upgradeManagerProgram, matchingEngineProgram, coreBridgeProgramId.
    rewrite Ht, Hl. repeat split.
  - intros H. split.
    + destruct coreBridge_ids_decode as (t & l & Et & El & _).
      unfold upgradeManagerProgram, matchingEngineProgram, coreBridgeProgramId.
      apply identity_cases in H as [H | H].
      * apply localnet_identity in H as [Ht Hl]. rewrite Ht, Hl, El.
        eexists. eexists. eexists. repeat split.
      * apply testnet_identity in H. rewrite H, Et.
        eexists. eexists. eexists. repeat split.
    + intros again Hid Hmint Hconn.
      unfold upgradeManagerProgram, matchingEngineProgram, coreBridgeProgramId, mint.
      rewrite Hid, Hmint, Hconn. repeat split.
Qed.

Lemma dependentPrograms_localnet (self : TokenRouterProgram) :
  _programId self = localnet ->
  exists coreBridge,
    PublicKey_new "worm2ZoG2kUd4vFXhvjh93UUH596ayRfgQ2MgjNMTth" = Ok coreBridge /\
    dependentPrograms self =
    Ok {| dp_coreBridge := coreBridge;
          dp_upgradeManager := "UpgradeManager11111111111111111111111111111";
          dp_matchingEngine := matchingEngineSdk_localnet;
          dp_tokenMessengerMinter := "CCTPiPYPc6AsJuwueEnWgSgucamXDZwBd53dQ11YiKX3";
          dp_messageTransmitter := "CCTPmbSD7gX1bxKPAmg77w8oFzNFpaQiQUWD43TKaecd" |}.
Proof.
  intros H. destruct coreBridge_ids_decode as (t & l & _ & El & _).
  exists l. split; [exact El|].
  apply localnet_identity in H as [Ht Hl].
  unfold dependentPrograms, upgradeManagerProgram, matchingEngineProgram,
    coreBridgeProgramId.
  rewrite Ht, Hl, El. reflexivity.
Qed.

Lemma dependentPrograms_testnet (self : TokenRouterProgram) :
  _programId self = testnet ->
  exists coreBridge,
    PublicKey_new "3u8hJUVTA4jH1wYAyUur7FFZVQ8H635K3tSHHF4ssjQ5" = Ok coreBridge /\
    dependentPrograms self =
    Ok {| dp_coreBridge := coreBridge;
          dp_upgradeManager := "ucdP9ktgrXgEUnn6roqD2SfdGMR2JSiWHUKv23oXwxt";
          dp_matchingEngine := matchingEngineSdk_testnet;
          dp_tokenMessengerMinter := "CCTPiPYPc6AsJuwueEnWgSgucamXDZwBd53dQ11YiKX3";
          dp_messageTransmitter := "CCTPmbSD7gX1bxKPAmg77w8oFzNFpaQiQUWD43TKaecd" |}.
Proof.
  intros H. destruct coreBridge_ids_decode as (t & l & Et & _ & _).
  exists t. split; [exact Et|].
  apply testnet_identity in H.
  unfold dependentPrograms, upgradeManagerProgram, matchingEngineProgram,
    coreBridgeProgramId.
  rewrite H, Et. reflexivity.
Qed.

(** C7, as amended. For a localnet and a testnet client the table of
    dependent programs resolves on both; the core-bridge id and the
    upgrade-manager id differ between the two, the matching-engine id is
    the one the matching-engine SDK names for the respective network, and
    the token-messenger-minter and message-transmitter ids are the same
    on both networks. *)
Theorem network_switch_selects_table (a b : TokenRouterProgram) :
  _programId a = localnet ->
  _programId b = testnet ->
  exists ta tb : DependentPrograms,
    dependentPrograms a = Ok ta /\
    dependentPrograms b = Ok tb /\
    dp_coreBridge ta <> dp_coreBridge tb /\
    dp_upgradeManager ta <> dp_upgradeManager tb /\
    dp_matchingEngine ta = matchingEngineSdk_localnet /\
    dp_matchingEngine tb = matchingEngineSdk_testnet /\
    dp_tokenMessengerMinter ta = dp_tokenMessengerMinter tb /\
    dp_messageTransmitter ta = dp_messageTransmitter tb.
Proof.
  intros Ha Hb.
  destruct (dependentPrograms_localnet a Ha) as (l & El & Ea).
  destruct (dependentPrograms_testnet b Hb) as (t & Et & Eb).
  destruct coreBridge_ids_decode as (t' & l' & Et' & El' & Hneq).
  rewrite Et in Et'. rewrite El in El'.
  injection Et' as <-. injection El' as <-.
  eexists. eexists.
  split; [exact Ea|]. split; [exact Eb|]. cbn.
  split; [congruence|].
  split; [discriminate|].
  repeat split.
Qed.

End Network.

(** ** Approving and preparing an order *)

Section Prepare.

Context {C : Collaborators}.
Variable self : TokenRouterProgram.

Arguments encodePrepareMarketOrder : simpl never.

Lemma approveTransferAuthorityIx_run
    (accounts : ApproveTransferAuthority.accounts)
    (args : PrepareMarketOrderArgs) (transferAuthority delegator : PublicKey) :
  transferAuthorityAddress self
    (ApproveTransferAuthority.preparedOrder accounts) args = Ok transferAuthority ->
  delegatingOwner (program_connection self)
    (ApproveTransferAuthority.senderToken accounts)
    (ApproveTransferAuthority.senderTokenAuthority accounts) = Some delegator ->
  approveTransferAuthorityIx self accounts args =
  (Ok {| ApproveTransferAuthority.transferAuthority := transferAuthority;
         ApproveTransferAuthority.ix :=
           ApproveInstruction (ApproveTransferAuthority.senderToken accounts)
             transferAuthority delegator (amountIn args) |},
   match ApproveTransferAuthority.senderTokenAuthority accounts with
   | Some _ => []
   | None => [ReadTokenAccount (ApproveTransferAuthority.senderToken accounts)]
   end).
Proof.
  intros Hta Hdelegator.
  unfold approveTransferAuthorityIx, delegatingOwner in *. rewrite Hta.
  destruct (ApproveTransferAuthority.senderTokenAuthority accounts) as [given|].
  - injection Hdelegator as ->. reflexivity.
  - unfold splToken.getAccount, fetch.
    destruct (tokenAccountAt _ _) as [tokenAccount|]; [|discriminate Hdelegator].
    injection Hdelegator as <-. reflexivity.
Qed.

(** C10. For order parameters that fit their wire widths, the approve
    instruction returned by [approveTransferAuthorityIx] delegates exactly
    [amountIn] from the given [senderToken] account to the address
    computed by [transferAuthorityAddress]; the delegating owner is the
    given [senderTokenAuthority] when there is one (and then nothing is
    read), and otherwise the owner read from the [senderToken] account. *)
Theorem approveTransferAuthorityIx_delegates_amountIn
    (accounts : ApproveTransferAuthority.accounts)
    (args : PrepareMarketOrderArgs) :
  encodable args = true ->
  exists transferAuthority : PublicKey,
    transferAuthorityAddress self
      (ApproveTransferAuthority.preparedOrder accounts) args
      = Ok transferAuthority /\
    match ApproveTransferAuthority.senderTokenAuthority accounts with
    | Some given =>
        approveTransferAuthorityIx self accounts args =
        (Ok {| ApproveTransferAuthority.transferAuthority := transferAuthority;
               ApproveTransferAuthority.ix :=
                 ApproveInstruction
                   (ApproveTransferAuthority.senderToken accounts)
                   transferAuthority given (amountIn args) |},
         [])
    | None =>
        forall tokenAccount : TokenAccount,
          tokenAccountAt (program_connection self)
            (ApproveTransferAuthority.senderToken accounts) = Some tokenAccount ->
          approveTransferAuthorityIx self accounts args =
          (Ok {| ApproveTransferAuthority.transferAuthority := transferAuthority;
                 ApproveTransferAuthority.ix :=
                   ApproveInstruction
                     (ApproveTransferAuthority.senderToken accounts)
                     transferAuthority (owner tokenAccount) (amountIn args) |},
           [ReadTokenAccount (ApproveTransferAuthority.senderToken accounts)])
    end.
Proof.
  intros Henc.
  eexists. split; [now apply transferAuthorityAddress_digestInput|].
  destruct (ApproveTransferAuthority.senderTokenAuthority accounts)
    as [given|] eqn:Hgiven.
  - erewrite approveTransferAuthorityIx_run;
      [rewrite Hgiven; reflexivity
      | now apply transferAuthorityAddress_digestInput
      | unfold delegatingOwner; now rewrite Hgiven].
  - intros tokenAccount Hfound.
    erewrite approveTransferAuthorityIx_run;
      [rewrite Hgiven; reflexivity
      | now apply transferAuthorityAddress_digestInput
      | unfold delegatingOwner; now rewrite Hgiven, Hfound].
Qed.





End Prepare.

(** ** Closing, consuming and placing *)

Section Compose.

Context {C : Collaborators}.
Variable self : TokenRouterProgram.

Arguments PublicKey_new : simpl never.
Arguments PublicKey_of_literal : simpl never.

(** C8. [closePreparedOrderIx] uses the given [preparedBy], [orderSender]
    and [refundToken] unchanged and reads nothing when all three are
    given; when one is missing it reads the prepared order once and takes
    from the stored record exactly the missing ones.
    [consumePreparedFillIx] has no optional account: it never reads the
    ledger and uses every given account unchanged. *)
Theorem prepared_accounts_fall_back_only_when_missing :
  (forall (accounts : ClosePreparedOrder.accounts) (p o r : PublicKey),
      ClosePreparedOrder.preparedBy accounts = Some p ->
      ClosePreparedOrder.orderSender accounts = Some o ->
      ClosePreparedOrder.refundToken accounts = Some r ->
      exists ix,
        closePreparedOrderIx self accounts = (Ok ix, []) /\
        account "preparedBy" (accountsOf ix) = Some (Address p) /\
        account "orderSender" (accountsOf ix) = Some (Address o) /\
        account "refundToken" (accountsOf ix) = Some (Address r)) /\
  (forall (accounts : ClosePreparedOrder.accounts) (stored : PreparedOrder),
      ClosePreparedOrder.preparedBy accounts = None \/
      ClosePreparedOrder.orderSender accounts = None \/
      ClosePreparedOrder.refundToken accounts = None ->
      preparedOrderAt (program_connection self)
        (ClosePreparedOrder.preparedOrder accounts) = Some stored ->
      exists ix,
        closePreparedOrderIx self accounts =
        (Ok ix, [ReadPreparedOrder (ClosePreparedOrder.preparedOrder accounts)]) /\
        account "preparedBy" (accountsOf ix) =
        Some (Address (orElse (ClosePreparedOrder.preparedBy accounts)
                              (PreparedOrderInfo.preparedBy (info stored)))) /\
        account "orderSender" (accountsOf ix) =
        Some (Address (orElse (ClosePreparedOrder.orderSender accounts)
                              (PreparedOrderInfo.orderSender (info stored)))) /\
        account "refundToken" (accountsOf ix) =
        Some (Address (orElse (ClosePreparedOrder.refundToken accounts)
                              (PreparedOrderInfo.refundToken (info stored))))) /\
  (forall accounts : ConsumePreparedFill.accounts,
      exists ix,
        consumePreparedFillIx self accounts = (Ok ix, []) /\
        account "redeemer" (accountsOf ix)
          = Some (Address (ConsumePreparedFill.redeemer accounts)) /\
        account "beneficiary" (accountsOf ix)
          = Some (Address (ConsumePreparedFill.beneficiary accounts)) /\
        account "preparedFill" (accountsOf ix)
          = Some (Address (ConsumePreparedFill.preparedFill accounts)) /\
        account "dstToken" (accountsOf ix)
          = Some (Address (ConsumePreparedFill.dstToken accounts))).
Proof.
  split; [|split].
  - intros accounts p o r Hp Ho Hr.
    unfold closePreparedOrderIx. rewrite Hp, Ho, Hr.
    eexists. cbn. repeat split.
  - intros accounts stored Hmissing Hfound.
    unfold closePreparedOrderIx, fetchPreparedOrder, fetch. rewrite Hfound.
    destruct (ClosePreparedOrder.preparedBy accounts) as [p|],
             (ClosePreparedOrder.orderSender accounts) as [o|],
             (ClosePreparedOrder.refundToken accounts) as [r|];
      try (exfalso; destruct Hmissing as [H | [H | H]]; discriminate H);
      eexists; cbn; repeat split.
  - intros accounts. unfold consumePreparedFillIx.
    eexists. cbn. repeat split.
Qed.

(** C3. When the caller leaves out [preparedBy] or [targetChain],
    [placeMarketOrderCctpIx] reads the prepared order first: if no record
    is found it fails with "Cannot find prepared order", and if the record
    holds a target chain that is not a recognised chain id it fails with
    "Invalid chain found in prepared order".  In both cases the read is
    the only thing that happened: no router endpoint was derived. *)
Theorem placeMarketOrderCctpIx_checks_order_first
    (accounts : PlaceMarketOrderCctp.accounts) (args : PlaceMarketOrderCctp.args) :
  PlaceMarketOrderCctp.preparedBy accounts = None \/
  PlaceMarketOrderCctp.targetChain args = None ->
  (preparedOrderAt (program_connection self)
     (PlaceMarketOrderCctp.preparedOrder accounts) = None ->
   placeMarketOrderCctpIx self accounts args =
   (Throw (Error "Cannot find prepared order"),
    [ReadPreparedOrder (PlaceMarketOrderCctp.preparedOrder accounts)])) /\
  (forall stored : PreparedOrder,
      preparedOrderAt (program_connection self)
        (PlaceMarketOrderCctp.preparedOrder accounts) = Some stored ->
      isChainId (PreparedOrderInfo.targetChain (info stored)) = false ->
      placeMarketOrderCctpIx self accounts args =
      (Throw (Error "Invalid chain found in prepared order"),
       [ReadPreparedOrder (PlaceMarketOrderCctp.preparedOrder accounts)])).
Proof.
  intros Hmissing. split.
  - intros Habsent.
    unfold placeMarketOrderCctpIx, fetchPreparedOrder, fetch. rewrite Habsent.
    destruct (PlaceMarketOrderCctp.preparedBy accounts) as [p|],
             (PlaceMarketOrderCctp.targetChain args) as [t|];
      try (exfalso; destruct Hmissing as [H | H]; discriminate H);
      reflexivity.
  - intros stored Hfound Hchain.
    unfold placeMarketOrderCctpIx, fetchPreparedOrder, fetch.
    rewrite Hfound.
    destruct (PlaceMarketOrderCctp.preparedBy accounts) as [p|],
             (PlaceMarketOrderCctp.targetChain args) as [t|];
      try (exfalso; destruct Hmissing as [H | H]; discriminate H);
      cbn; rewrite Hchain; reflexivity.
Qed.

Lemma bind_inv {A B} (m : Async A) (k : A -> Async B) (r : result B) (t : list Event) :
  bind m k = (r, t) ->
  (exists e, m = (Throw e, t) /\ r = Throw e) \/
  (exists a t1 t2, m = (Ok a, t1) /\ k a = (r, t2) /\ t = t1 ++ t2).
Proof.
  destruct m as [[a|e] t1]; cbn.
  - destruct (k a) as [r2 t2] eqn:Hk. intros H. injection H as <- <-.
    right. exists a, t1, t2. now rewrite Hk.
  - intros H. injection H as <- <-. left. now exists e.
Qed.

Lemma lift_inv {A} (x : result A) (r : result A) (t : list Event) :
  lift x = (r, t) -> r = x /\ t = [].
Proof. unfold lift. intros H. injection H as <- <-. now split. Qed.

Lemma placeMarketOrderCctpIx_blocks
    (accounts : PlaceMarketOrderCctp.accounts) (args : PlaceMarketOrderCctp.args) :
  exists build : PublicKey -> PublicKey -> Z -> PublishMessageAccounts
                 -> TransactionInstruction,
    placeMarketOrderCctpIx self accounts args =
    ('(preparedBy, targetChain) <- resolvePreparedOrder self
                   (PlaceMarketOrderCctp.preparedOrder accounts)
                   (PlaceMarketOrderCctp.preparedBy accounts)
                   (PlaceMarketOrderCctp.targetChain args);;
     matchingEngine <- lift (matchingEngineProgram self);;
     routerEndpoint <- resolveRouterEndpoint matchingEngine
                         (PlaceMarketOrderCctp.routerEndpoint accounts)
                         targetChain;;
     destinationDomain <- resolveDestinationDomain matchingEngine routerEndpoint
                            (PlaceMarketOrderCctp.destinationDomain args);;
     _ <- emit (ComposeBurnAccounts (mint self) destinationDomain);;
     publish <- lift (publishMessageAccounts self (custodianAddress self));;
     ret (build preparedBy routerEndpoint destinationDomain publish)) /\
    (forall preparedBy routerEndpoint destinationDomain publish,
        incl (burnRoles (depositForBurnWithCallerAccounts
                           (tokenMessengerMinterProgram self) (mint self)
                           destinationDomain))
             (accountsOf (build preparedBy routerEndpoint destinationDomain publish))).
Proof.
  eexists. split.
  - unfold placeMarketOrderCctpIx, resolvePreparedOrder, resolveRouterEndpoint,
      resolveDestinationDomain.
    reflexivity.
  - intros preparedBy routerEndpoint destinationDomain publish.
    unfold incl, burnRoles. cbn [accountsOf].
    intros entry Hentry. cbn [In] in Hentry.
    repeat (destruct Hentry as [<- | Hentry];
            [repeat first [left; reflexivity | right] |]).
    destruct Hentry.
Qed.

Lemma orderStage_only (before : list Event) (ev : Event) :
  forallb orderStage before = true -> In ev before -> orderStage ev = true.
Proof. intros Hall Hin. now apply (proj1 (forallb_forall _ _) Hall). Qed.

Lemma resolvePreparedOrder_events
    (preparedOrder : PublicKey) (preparedBy : option PublicKey)
    (targetChain : option Z) (r : result (PublicKey * Z)) (t : list Event) :
  resolvePreparedOrder self preparedOrder preparedBy targetChain = (r, t) ->
  forallb orderStage t = true.
Proof.
  unfold resolvePreparedOrder, fetchPreparedOrder, fetch, catch.
  destruct (preparedOrderAt (program_connection self) preparedOrder) as [stored|];
    destruct preparedBy, targetChain; cbn;
    try destruct (isChainId (PreparedOrderInfo.targetChain (info stored))); cbn;
    intros H; injection H as <- <-; reflexivity.
Qed.

Lemma resolveRouterEndpoint_events
    (matchingEngine : MatchingEngineProgram) (routerEndpoint : option PublicKey)
    (targetChain : Z) (r : result PublicKey) (t : list Event) :
  resolveRouterEndpoint matchingEngine routerEndpoint targetChain = (r, t) ->
  forallb orderStage t = true.
Proof.
  unfold resolveRouterEndpoint. destruct routerEndpoint; cbn;
    intros H; injection H as <- <-; reflexivity.
Qed.

Lemma resolveDestinationDomain_cases
    (matchingEngine : MatchingEngineProgram) (routerEndpoint : PublicKey)
    (destinationDomain : option Z) (r : result Z) (t : list Event) :
  resolveDestinationDomain matchingEngine routerEndpoint destinationDomain = (r, t) ->
  (exists given, destinationDomain = Some given /\ r = Ok given /\ t = []) \/
  (destinationDomain = None /\ t = [ReadRouterEndpoint routerEndpoint] /\
   match routerEndpointAt (me_connection matchingEngine) routerEndpoint with
   | None => r = Throw (AccountNotFound (toBuffer routerEndpoint))
   | Some stored =>
       match cctp (protocol stored) with
       | None => r = Throw (Error "invalid router endpoint")
       | Some variant => r = Ok (domain variant)
       end
   end).
Proof.
  unfold resolveDestinationDomain, fetchRouterEndpointInfo, fetch.
  destruct destinationDomain as [given|]; cbn.
  - intros H. injection H as <- <-. left. now exists given.
  - destruct (routerEndpointAt (me_connection matchingEngine) routerEndpoint)
      as [stored|]; [destruct (cctp (protocol stored)) as [variant|]|]; cbn;
      intros H; injection H as <- <-; right; repeat split.
Qed.

Lemma matchingEngine_connection (matchingEngine : MatchingEngineProgram) :
  matchingEngineProgram self = Ok matchingEngine ->
  me_connection matchingEngine = program_connection self.
Proof.
  unfold matchingEngineProgram.
  destruct (String.eqb (_programId self) testnet);
    [|destruct (String.eqb (_programId self) localnet)];
    intros H; [injection H as <- | injection H as <- | discriminate H];
    reflexivity.
Qed.

Lemma network_resolution_unknown :
  ~ In (_programId self) PROGRAM_IDS ->
  upgradeManagerProgram self = Throw (Error "unsupported network") /\
  matchingEngineProgram self = Throw (Error "unsupported network") /\
  coreBridgeProgramId self = Throw (Error "unsupported network").
Proof.
  intros H. apply unknown_identity in H as [Ht Hl].
  unfold upgradeManagerProgram, matchingEngineProgram, coreBridgeProgramId.
  rewrite Ht, Hl. repeat split.
Qed.

Lemma network_resolution_cases :
  In (_programId self) PROGRAM_IDS ->
  exists upgradeManager matchingEngine coreBridge,
    upgradeManagerProgram self = Ok upgradeManager /\
    matchingEngineProgram self = Ok matchingEngine /\
    coreBridgeProgramId self = Ok coreBridge.
Proof.
  intros H. destruct coreBridge_ids_decode as (t & l & Et & El & _).
  unfold upgradeManagerProgram, matchingEngineProgram, coreBridgeProgramId.
  apply identity_cases in H as [H | H].
  - apply localnet_identity in H as [Ht Hl]. rewrite Ht, Hl, El.
    eexists. eexists. eexists. repeat split.
  - apply testnet_identity in H. rewrite H, Et.
    eexists. eexists. eexists. repeat split.
Qed.

(** On a known network the matching engine and the core bridge resolve. *)
Lemma known_network :
  In (_programId self) PROGRAM_IDS ->
  exists matchingEngine coreBridge,
    matchingEngineProgram self = Ok matchingEngine /\
    me_connection matchingEngine = program_connection self /\
    coreBridgeProgramId self = Ok coreBridge.
Proof.
  intros H.
  destruct (network_resolution_cases H) as (um & me & cb & _ & Hme & Hcb).
  exists me, cb. split; [exact Hme|]. split; [|exact Hcb].
  now apply matchingEngine_connection.
Qed.

(** How a run of [placeMarketOrderCctpIx] can end, by the block it reaches. *)
Lemma placeMarketOrderCctpIx_outcomes
    (accounts : PlaceMarketOrderCctp.accounts) (args : PlaceMarketOrderCctp.args)
    (r : result TransactionInstruction) (t : list Event) :
  placeMarketOrderCctpIx self accounts args = (r, t) ->
  exists before : list Event,
    forallb orderStage before = true /\
    ((t = before /\ exists e, r = Throw e) \/
     (exists routerEndpoint e,
         PlaceMarketOrderCctp.destinationDomain args = None /\
         t = before ++ [ReadRouterEndpoint routerEndpoint] /\
         r = Throw e /\
         (routerEndpointAt (program_connection self) routerEndpoint = None \/
          exists stored,
            routerEndpointAt (program_connection self) routerEndpoint = Some stored /\
            cctp (protocol stored) = None /\
            e = Error "invalid router endpoint")) \/
     (exists (d : Z) (reads : list Event),
         t = before ++ reads ++ [ComposeBurnAccounts (mint self) d] /\
         ((PlaceMarketOrderCctp.destinationDomain args = Some d /\ reads = []) \/
          (PlaceMarketOrderCctp.destinationDomain args = None /\
           exists routerEndpoint stored variant,
             reads = [ReadRouterEndpoint routerEndpoint] /\
             routerEndpointAt (program_connection self) routerEndpoint = Some stored /\
             cctp (protocol stored) = Some variant /\
             d = domain variant)) /\
         ((exists e, r = Throw e) \/
          (exists ix,
              r = Ok ix /\
              incl (burnRoles (depositForBurnWithCallerAccounts
                                 (tokenMessengerMinterProgram self) (mint self) d))
                   (accountsOf ix))))).
Proof.
  destruct (placeMarketOrderCctpIx_blocks accounts args) as (build & -> & Hburn).
  intros Hrun.
  apply bind_inv in Hrun
    as [(e & Hres & ->) | ([preparedBy targetChain] & t1 & t' & Hres & Hrun & ->)].
  { exists t. split; [eapply resolvePreparedOrder_events; eassumption|].
    left. split; [reflexivity | now exists e]. }
  apply resolvePreparedOrder_events in Hres.
  apply bind_inv in Hrun
    as [(e & Hme & ->) | (matchingEngine & t2 & t'' & Hme & Hrun & ->)].
  { apply lift_inv in Hme as [_ ->]. exists t1. split; [exact Hres|].
    left. split; [now rewrite app_nil_r | now exists e]. }
  apply lift_inv in Hme as [Hme ->]. symmetry in Hme.
  apply matchingEngine_connection in Hme. cbn [app].
  apply bind_inv in Hrun
    as [(e & Hre & ->) | (routerEndpoint & t3 & t' & Hre & Hrun & ->)].
  { exists (t1 ++ t''). split.
    - rewrite forallb_app, Hres. cbn. eapply resolveRouterEndpoint_events; eassumption.
    - left. split; [reflexivity | now exists e]. }
  apply resolveRouterEndpoint_events in Hre.
  exists (t1 ++ t3). split; [now rewrite forallb_app, Hres, Hre|].
  apply bind_inv in Hrun
    as [(e & Hdom & ->) | (d & t4 & t'' & Hdom & Hrun & ->)].
  { apply resolveDestinationDomain_cases in Hdom
      as [(given & _ & Habs & _) | (Hnone & -> & Hread)]; [discriminate Habs|].
    right. left. exists routerEndpoint, e.
    split; [exact Hnone|]. split; [now rewrite app_assoc|]. split; [reflexivity|].
    rewrite Hme in Hread.
    destruct (routerEndpointAt (program_connection self) routerEndpoint)
      as [stored|]; [|now left].
    right. exists stored. split; [reflexivity|].
    destruct (cctp (protocol stored)) as [variant|]; [discriminate Hread|].
    injection Hread as ->. now split. }
  apply bind_inv in Hrun
    as [(e & Hemit & _) | ([] & t5 & t' & Hemit & Hrun & ->)];
    [discriminate Hemit|].
  injection Hemit as <-.
  right. right. exists d, t4.
  assert (Hdomain :
    (PlaceMarketOrderCctp.destinationDomain args = Some d /\ t4 = []) \/
    (PlaceMarketOrderCctp.destinationDomain args = None /\
     exists routerEndpoint stored variant,
       t4 = [ReadRouterEndpoint routerEndpoint] /\
       routerEndpointAt (program_connection self) routerEndpoint = Some stored /\
       cctp (protocol stored) = Some variant /\
       d = domain variant)).
  { apply resolveDestinationDomain_cases in Hdom
      as [(given & Hgiven & Hok & ->) | (Hnone & -> & Hread)].
    - injection Hok as <-. now left.
    - right. split; [exact Hnone|]. rewrite Hme in Hread.
      destruct (routerEndpointAt (program_connection self) routerEndpoint)
        as [stored|] eqn:Hstored; [|discriminate Hread].
      destruct (cctp (protocol stored)) as [variant|] eqn:Hvariant;
        [|discriminate Hread].
      injection Hread as ->. exists routerEndpoint, stored, variant.
      split; [reflexivity|]. split; [exact Hstored|]. split; [exact Hvariant|].
      reflexivity. }
  apply bind_inv in Hrun
    as [(e & Hpub & ->) | (publish & t6 & t'' & Hpub & Hrun & ->)].
  { apply lift_inv in Hpub as [_ ->].
    split; [now rewrite <- !app_assoc|]. split; [exact Hdomain|].
    left. now exists e. }
  apply lift_inv in Hpub as [_ ->]. cbn in Hrun. injection Hrun as <- <-.
  split; [cbn; now rewrite <- !app_assoc|]. split; [exact Hdomain|].
  right. eexists. split; [reflexivity | apply Hburn].
Qed.

Lemma orderStage_before (before : list Event) (ev : Event) :
  forallb orderStage before = true -> orderStage ev = false -> ~ In ev before.
Proof.
  intros Hall Hev Hin. apply (orderStage_only _ _ Hall) in Hin. congruence.
Qed.

(** What every run of [placeMarketOrderCctpIx] satisfies, read off its
    trace. *)
Lemma placeMarketOrderCctpIx_trace
    (accounts : PlaceMarketOrderCctp.accounts) (args : PlaceMarketOrderCctp.args) :
  let run := placeMarketOrderCctpIx self accounts args in
  (forall m d,
      In (ComposeBurnAccounts m d) (snd run) ->
      m = mint self /\
      match PlaceMarketOrderCctp.destinationDomain args with
      | Some given => d = given
      | None =>
          exists endpoint stored variant,
            In (ReadRouterEndpoint endpoint) (snd run) /\
            routerEndpointAt (program_connection self) endpoint = Some stored /\
            cctp (protocol stored) = Some variant /\
            d = domain variant
      end) /\
  (forall ix,
      fst run = Ok ix ->
      exists d,
        In (ComposeBurnAccounts (mint self) d) (snd run) /\
        incl (burnRoles (depositForBurnWithCallerAccounts
                           (tokenMessengerMinterProgram self) (mint self) d))
             (accountsOf ix)) /\
  (PlaceMarketOrderCctp.destinationDomain args = None ->
   forall endpoint stored,
     In (ReadRouterEndpoint endpoint) (snd run) ->
     routerEndpointAt (program_connection self) endpoint = Some stored ->
     cctp (protocol stored) = None ->
     fst run = Throw (Error "invalid router endpoint") /\
     forall m d, ~ In (ComposeBurnAccounts m d) (snd run)) /\
  (PlaceMarketOrderCctp.destinationDomain args <> None ->
   forall endpoint, ~ In (ReadRouterEndpoint endpoint) (snd run)).
Proof.
  intros run. destruct run as [r t] eqn:Hrun. subst run. cbn [fst snd].
  apply placeMarketOrderCctpIx_outcomes in Hrun as (before & Hbefore & Hcases).
  assert (Hno_burn : forall m d, ~ In (ComposeBurnAccounts m d) before)
    by (intros m d; now apply orderStage_before).
  assert (Hno_read : forall endpoint, ~ In (ReadRouterEndpoint endpoint) before)
    by (intros endpoint; now apply orderStage_before).
  destruct Hcases
    as [(-> & e & ->)
       | [(routerEndpoint & e & Hnone & -> & -> & Hwhy)
         | (d0 & reads & -> & Hdomain & Hresult)]].
  - (* the run failed before the destination domain was needed *)
    split; [intros m d Hin; now apply Hno_burn in Hin|].
    split; [intros ix Hok; discriminate Hok|].
    split; [intros _ endpoint stored Hin; now apply Hno_read in Hin|].
    intros _ endpoint. apply Hno_read.
  - (* the run failed while reading the router endpoint *)
    assert (Hburn : forall m d,
               ~ In (ComposeBurnAccounts m d)
                    (before ++ [ReadRouterEndpoint routerEndpoint])).
    { intros m d Hin. apply in_app_or in Hin as [Hin | [Hin | []]];
        [now apply Hno_burn in Hin | discriminate Hin]. }
    split; [intros m d Hin; now apply Hburn in Hin|].
    split; [intros ix Hok; discriminate Hok|].
    split; [|intros Hgiven; now contradiction Hgiven].
    intros _ endpoint stored Hin Hstored Hvariant.
    apply in_app_or in Hin as [Hin | [Hin | []]]; [now apply Hno_read in Hin|].
    injection Hin as <-.
    destruct Hwhy as [Habsent | (stored' & _ & _ & ->)]; [congruence|].
    split; [reflexivity | exact Hburn].
  - (* the burn accounts were composed for [d0] *)
    assert (Hburn : forall m d,
               In (ComposeBurnAccounts m d)
                  (before ++ reads ++ [ComposeBurnAccounts (mint self) d0]) ->
               m = mint self /\ d = d0).
    { intros m d Hin. apply in_app_or in Hin as [Hin | Hin];
        [now apply Hno_burn in Hin|].
      apply in_app_or in Hin as [Hin | [Hin | []]].
      - destruct Hdomain as [[_ ->] | (_ & re & st & v & -> & _)];
          [destruct Hin | destruct Hin as [Hin | []]; discriminate Hin].
      - injection Hin as <- <-. now split. }
    split.
    { intros m d Hin. apply Hburn in Hin as [-> ->]. split; [reflexivity|].
      destruct Hdomain as [[-> _] | (-> & re & st & v & -> & Hst & Hv & ->)];
        [reflexivity|].
      exists re, st, v. split; [|now repeat split].
      apply in_or_app. right. now left. }
    split.
    { intros ix Hok. destruct Hresult as [(e & ->) | (ix' & -> & Hincl)];
        [discriminate Hok|].
      injection Hok as <-. exists d0. split; [|exact Hincl].
      apply in_or_app. right. apply in_or_app. right. now left. }
    split.
    { intros Hnone endpoint stored Hin Hstored Hvariant.
      destruct Hdomain as [[Hgiven _] | (_ & re & st & v & -> & Hst & Hv & ->)];
        [congruence|].
      apply in_app_or in Hin as [Hin | Hin]; [now apply Hno_read in Hin|].
      destruct Hin as [Hin | [Hin | []]]; [|discriminate Hin].
      injection Hin as <-. congruence. }
    intros Hgiven endpoint Hin.
    destruct Hdomain as [[_ ->] | (Hnone & _)]; [|now contradiction Hgiven].
    apply in_app_or in Hin as [Hin | [Hin | []]];
      [now apply Hno_read in Hin | discriminate Hin].
Qed.
(** Where a run of [placeMarketOrderCctpIx] ends once the prepared order is
    resolved on a known network, and what it has done by then. *)
Lemma placeMarketOrderCctpIx_run
    (accounts : PlaceMarketOrderCctp.accounts) (args : PlaceMarketOrderCctp.args) :
  forall (preparedBy : PublicKey) (targetChain : Z) (before : list Event),
    In (_programId self) PROGRAM_IDS ->
    match PlaceMarketOrderCctp.preparedBy accounts,
          PlaceMarketOrderCctp.targetChain args with
    | Some p, Some t => preparedBy = p /\ targetChain = t /\ before = []
    | givenBy, givenChain =>
        exists stored : PreparedOrder,
          preparedOrderAt (program_connection self)
            (PlaceMarketOrderCctp.preparedOrder accounts) = Some stored /\
          isChainId (PreparedOrderInfo.targetChain (info stored)) = true /\
          preparedBy = orElse givenBy (PreparedOrderInfo.preparedBy (info stored)) /\
          targetChain
          = orElse givenChain (PreparedOrderInfo.targetChain (info stored)) /\
          before = [ReadPreparedOrder (PlaceMarketOrderCctp.preparedOrder accounts)]
    end ->
    exists matchingEngine : MatchingEngineProgram,
      matchingEngineProgram self = Ok matchingEngine /\
      let endpoint :=
        orElse (PlaceMarketOrderCctp.routerEndpoint accounts)
               (routerEndpointAddress matchingEngine targetChain) in
      let derived :=
        match PlaceMarketOrderCctp.routerEndpoint accounts with
        | Some _ => []
        | None => [DeriveRouterEndpoint targetChain]
        end in
      match PlaceMarketOrderCctp.destinationDomain args with
      | Some given =>
          exists ix,
            placeMarketOrderCctpIx self accounts args =
            (Ok ix, before ++ derived ++ [ComposeBurnAccounts (mint self) given]) /\
            incl (burnRoles (depositForBurnWithCallerAccounts
                               (tokenMessengerMinterProgram self) (mint self) given))
                 (accountsOf ix)
      | None =>
          match routerEndpointAt (program_connection self) endpoint with
          | None =>
              placeMarketOrderCctpIx self accounts args =
              (Throw (AccountNotFound (toBuffer endpoint)),
               before ++ derived ++ [ReadRouterEndpoint endpoint])
          | Some stored =>
              match cctp (protocol stored) with
              | None =>
                  placeMarketOrderCctpIx self accounts args =
                  (Throw (Error "invalid router endpoint"),
                   before ++ derived ++ [ReadRouterEndpoint endpoint])
              | Some variant =>
                  exists ix,
                    placeMarketOrderCctpIx self accounts args =
                    (Ok ix,
                     before ++ derived
                     ++ [ReadRouterEndpoint endpoint;
                         ComposeBurnAccounts (mint self) (domain variant)]) /\
                    incl (burnRoles (depositForBurnWithCallerAccounts
                                       (tokenMessengerMinterProgram self)
                                       (mint self) (domain variant)))
                         (accountsOf ix)
              end
          end
      end.
Proof.
  intros preparedBy targetChain before Hknown Horder.
  destruct (known_network Hknown) as (me & cb & Hme & Hconn & Hcb).
  exists me. split; [exact Hme|].
  assert (Hblock : resolvePreparedOrder self
                     (PlaceMarketOrderCctp.preparedOrder accounts)
                     (PlaceMarketOrderCctp.preparedBy accounts)
                     (PlaceMarketOrderCctp.targetChain args)
                   = (Ok (preparedBy, targetChain), before)).
  { unfold resolvePreparedOrder, fetchPreparedOrder, fetch, catch.
    destruct (PlaceMarketOrderCctp.preparedBy accounts) as [p|],
             (PlaceMarketOrderCctp.targetChain args) as [t|];
      [destruct Horder as (-> & -> & ->); reflexivity
      |destruct Horder as (stored & -> & Hvalid & -> & -> & ->);
       cbn; rewrite Hvalid; reflexivity ..]. }
  destruct (placeMarketOrderCctpIx_blocks accounts args) as (build & Hb & Hburn).
  rewrite Hb, Hblock, Hme. clear Hb.
  unfold resolveRouterEndpoint, resolveDestinationDomain, fetchRouterEndpointInfo,
    fetch, publishMessageAccounts.
  rewrite Hcb.
  destruct (PlaceMarketOrderCctp.routerEndpoint accounts) as [endpoint|];
    cbn [orElse];
    (destruct (PlaceMarketOrderCctp.destinationDomain args) as [given|];
     [eexists; split; [reflexivity | apply Hburn]|]);
    cbn [bind async_monad lift ret emit]; rewrite Hconn;
    match goal with
    | |- context [routerEndpointAt (program_connection self) ?e] =>
        destruct (routerEndpointAt (program_connection self) e) as [stored|];
        [destruct (cctp (protocol stored)) as [variant|];
         [eexists; split; [reflexivity | apply Hburn] | reflexivity]
        | reflexivity]
    end.
Qed.

(** C4. [placeMarketOrderCctpIx] composes the burn accounts for the
    program's mint and one destination domain.  Once the prepared order is
    resolved on a known network (both [preparedBy] and [targetChain] given,
    or the stored order found with a recognised chain), the run is
    determined: with a domain given it returns an instruction whose burn
    accounts are composed for that domain, and no router endpoint is read;
    with none given it reads the router endpoint (the given one, else the
    one derived for the target chain) and returns an instruction whose burn
    accounts are composed for the CCTP domain found there, fails with
    "invalid router endpoint" when the protocol found is not the CCTP
    variant, and fails with the lookup error when nothing is found; in
    neither failure are burn accounts composed.  In every run, whatever
    the inputs: burn accounts are composed only for the program's mint and
    that domain, an instruction is returned only after the composition and
    carries its accounts, and a given domain means no endpoint read. *)
Theorem placeMarketOrderCctpIx_destinationDomain
    (accounts : PlaceMarketOrderCctp.accounts) (args : PlaceMarketOrderCctp.args) :
  let run := placeMarketOrderCctpIx self accounts args in
  (forall m d,
      In (ComposeBurnAccounts m d) (snd run) ->
      m = mint self /\
      match PlaceMarketOrderCctp.destinationDomain args with
      | Some given => d = given
      | None =>
          exists endpoint stored variant,
            In (ReadRouterEndpoint endpoint) (snd run) /\
            routerEndpointAt (program_connection self) endpoint = Some stored /\
            cctp (protocol stored) = Some variant /\
            d = domain variant
      end) /\
  (forall ix,
      fst run = Ok ix ->
      exists d,
        In (ComposeBurnAccounts (mint self) d) (snd run) /\
        incl (burnRoles (depositForBurnWithCallerAccounts
                           (tokenMessengerMinterProgram self) (mint self) d))
             (accountsOf ix)) /\
  (PlaceMarketOrderCctp.destinationDomain args = None ->
   forall endpoint stored,
     In (ReadRouterEndpoint endpoint) (snd run) ->
     routerEndpointAt (program_connection self) endpoint = Some stored ->
     cctp (protocol stored) = None ->
     fst run = Throw (Error "invalid router endpoint") /\
     forall m d, ~ In (ComposeBurnAccounts m d) (snd run)) /\
  (PlaceMarketOrderCctp.destinationDomain args <> None ->
   forall endpoint, ~ In (ReadRouterEndpoint endpoint) (snd run)) /\
  (forall (preparedBy : PublicKey) (targetChain : Z) (before : list Event),
    In (_programId self) PROGRAM_IDS ->
    match PlaceMarketOrderCctp.preparedBy accounts,
          PlaceMarketOrderCctp.targetChain args with
    | Some p, Some t => preparedBy = p /\ targetChain = t /\ before = []
    | givenBy, givenChain =>
        exists stored : PreparedOrder,
          preparedOrderAt (program_connection self)
            (PlaceMarketOrderCctp.preparedOrder accounts) = Some stored /\
          isChainId (PreparedOrderInfo.targetChain (info stored)) = true /\
          preparedBy = orElse givenBy (PreparedOrderInfo.preparedBy (info stored)) /\
          targetChain
          = orElse givenChain (PreparedOrderInfo.targetChain (info stored)) /\
          before = [ReadPreparedOrder (PlaceMarketOrderCctp.preparedOrder accounts)]
    end ->
    exists matchingEngine : MatchingEngineProgram,
      matchingEngineProgram self = Ok matchingEngine /\
      let endpoint :=
        orElse (PlaceMarketOrderCctp.routerEndpoint accounts)
               (routerEndpointAddress matchingEngine targetChain) in
      let derived :=
        match PlaceMarketOrderCctp.routerEndpoint accounts with
        | Some _ => []
        | None => [DeriveRouterEndpoint targetChain]
        end in
      match PlaceMarketOrderCctp.destinationDomain args with
      | Some given =>
          exists ix,
            placeMarketOrderCctpIx self accounts args =
            (Ok ix, before ++ derived ++ [ComposeBurnAccounts (mint self) given]) /\
            incl (burnRoles (depositForBurnWithCallerAccounts
                               (tokenMessengerMinterProgram self) (mint self) given))
                 (accountsOf ix)
      | None =>
          match routerEndpointAt (program_connection self) endpoint with
          | None =>
              placeMarketOrderCctpIx self accounts args =
              (Throw (AccountNotFound (toBuffer endpoint)),
               before ++ derived ++ [ReadRouterEndpoint endpoint])
          | Some stored =>
              match cctp (protocol stored) with
              | None =>
                  placeMarketOrderCctpIx self accounts args =
                  (Throw (Error "invalid router endpoint"),
                   before ++ derived ++ [ReadRouterEndpoint endpoint])
              | Some variant =>
                  exists ix,
                    placeMarketOrderCctpIx self accounts args =
                    (Ok ix,
                     before ++ derived
                     ++ [ReadRouterEndpoint endpoint;
                         ComposeBurnAccounts (mint self) (domain variant)]) /\
                    incl (burnRoles (depositForBurnWithCallerAccounts
                                       (tokenMessengerMinterProgram self)
                                       (mint self) (domain variant)))
                         (accountsOf ix)
              end
          end
      end).
Proof.
  intros run.
  destruct (placeMarketOrderCctpIx_trace accounts args)
    as (Hcomposed & Hreturned & Hinvalid & Hgiven).
  split; [exact Hcomposed|]. split; [exact Hreturned|].
  split; [exact Hinvalid|]. split; [exact Hgiven|].
  apply placeMarketOrderCctpIx_run.
Qed.

End Compose.

(** ** The CCTP mint recipient *)

Section MintRecipient.

Context {C : Collaborators}.

(** C9. For every client, whatever its mint [M], [cctpMintRecipientAddress]
    returns the associated-token-account address of [(M, A)] under the
    standard derivation (seeds: owner, token program, mint; program: the
    associated-token program), where [A] is the address derived from the
    program id with the single seed "custodian".  The call never throws:
    an owner off the curve is allowed. *)
Theorem cctpMintRecipientAddress_is_associated_account (self : TokenRouterProgram) :
  let M := _mint self in
  let A := fst (findProgramAddressSync [from_string "custodian"]
                                       (program_programId self)) in
  custodianAddress self = A /\
  cctpMintRecipientAddress self =
  Ok (fst (findProgramAddressSync
             [toBuffer A; toBuffer splToken.TOKEN_PROGRAM_ID; toBuffer M]
             splToken.ASSOCIATED_TOKEN_PROGRAM_ID)).
Proof.
  intros M A. split; [reflexivity|].
  unfold cctpMintRecipientAddress, splToken.getAssociatedTokenAddressSync.
  cbn [negb andb]. reflexivity.
Qed.

End MintRecipient.

(** ** Concrete runs

    The statements above, exercised on the closed instance [Scenario.ideal]
    and the ledger [Scenario.ledger]. *)

Section Runs.

Import Scenario.

(** Every program id the packages spell out is a valid 32-octet key. *)
Lemma well_known_ids_decode :
  Forall (fun text => exists k, PublicKey_new text = Ok k)
    ["TokenkegQfeZyiNwAJbNbGKPFXCWuBvf9Ss623VQ5DA";
     "ATokenGPvbdGVxr1b2hvZbsiqW5xWH25efTNsLJA8knL";
     "11111111111111111111111111111111";
     "SysvarRent111111111111111111111111111111111";
     "SysvarC1ock11111111111111111111111111111111";
     localnet; testnet].
Proof. repeat constructor; eexists; vm_compute; reflexivity. Qed.

(** The clients of the scenario are the ones the constructor builds. *)
Example clients_are_constructed :
  Forall (fun id => TokenRouterProgram_new ledger id usdc = Ok (client id))
    [localnet; testnet; foreign].
Proof. repeat constructor; vm_compute; reflexivity. Qed.

(** The constructor refuses an identity that is not a key at all. *)
Example constructor_rejects_text :
  TokenRouterProgram_new ledger "not a key" usdc = Throw (Error "Non-base58 character").
Proof. reflexivity. Qed.

Lemma transferAuthorityAddress_seeds_witness :
  OrderParameters order100 = true /\
  exists amount minimum chain raw : Buffer,
    List.length amount = 8%nat /\ be_value amount = amountIn order100 /\
    match minAmountOut order100 with
    | Some m => List.length minimum = 8%nat /\ be_value minimum = m
    | None => minimum = []
    end /\
    List.length chain = 2%nat /\ be_value chain = targetChain order100 /\
    List.length raw = 32%nat /\ map Z_of_byte raw = redeemer order100 /\
    transferAuthorityAddress (client localnet) orderAccount order100 =
    Ok (fst (findProgramAddressSync
               [from_string "transfer-authority";
                toBuffer orderAccount;
                keccak256 (amount ++ minimum ++ chain ++ raw
                           ++ redeemerMessage order100)]
               (ID (client localnet)))).
Proof.
  split; [reflexivity|].
  apply (transferAuthorityAddress_seeds (C := ideal)). reflexivity.
Defined.


Lemma placeMarketOrderCctpIx_checks_order_first_witness :
  (PlaceMarketOrderCctp.preparedBy (placeAccounts strayOrder None) = None \/
   PlaceMarketOrderCctp.targetChain (placeArgs (Some 2) None) = None) /\
  placeMarketOrderCctpIx (client localnet) (placeAccounts fillAccount None)
    (placeArgs (Some 2) None) =
  (Throw (Error "Cannot find prepared order"), [ReadPreparedOrder fillAccount]) /\
  placeMarketOrderCctpIx (client localnet) (placeAccounts strayOrder None)
    (placeArgs (Some 2) None) =
  (Throw (Error "Invalid chain found in prepared order"),
   [ReadPreparedOrder strayOrder]).
Proof.
  split; [left; reflexivity|]. split.
  - apply (placeMarketOrderCctpIx_checks_order_first (C := ideal)
             (client localnet) (placeAccounts fillAccount None)
             (placeArgs (Some 2) None) (or_introl eq_refl)).
    vm_compute. reflexivity.
  - eapply (placeMarketOrderCctpIx_checks_order_first (C := ideal)
              (client localnet) (placeAccounts strayOrder None)
              (placeArgs (Some 2) None) (or_introl eq_refl));
      vm_compute; reflexivity.
Defined.

(** The two failures of C3 on the ledger: an order that does not exist, and
    one stored for chain 65000, both on a client of no known network (the
    order is checked before the network is). *)
Example place_order_not_found :
  placeMarketOrderCctpIx (client foreign) (placeAccounts fillAccount None)
    (placeArgs (Some 2) None)
  = (Throw (Error "Cannot find prepared order"), [ReadPreparedOrder fillAccount]).
Proof. vm_compute. reflexivity. Qed.

Example place_invalid_target_chain :
  placeMarketOrderCctpIx (client foreign) (placeAccounts strayOrder None)
    (placeArgs (Some 2) None)
  = (Throw (Error "Invalid chain found in prepared order"),
     [ReadPreparedOrder strayOrder]).
Proof. vm_compute. reflexivity. Qed.

(** The three ways of C4 on the ledger. *)
Example place_given_domain :
  exists ix,
    placeMarketOrderCctpIx (client testnet) (placeAccounts orderAccount None)
      (placeArgs None (Some 3))
    = (Ok ix, [ReadPreparedOrder orderAccount; DeriveRouterEndpoint 2;
               ComposeBurnAccounts usdc 3]).
Proof. eexists. vm_compute. reflexivity. Qed.

Example place_read_domain :
  exists ix,
    placeMarketOrderCctpIx (client testnet)
      (placeAccounts orderAccount (Some endpointAccount)) (placeArgs None None)
    = (Ok ix, [ReadPreparedOrder orderAccount; ReadRouterEndpoint endpointAccount;
               ComposeBurnAccounts usdc 0]).
Proof. eexists. vm_compute. reflexivity. Qed.

Example place_not_cctp :
  placeMarketOrderCctpIx (client testnet)
    (placeAccounts orderAccount (Some localEndpoint)) (placeArgs None None)
  = (Throw (Error "invalid router endpoint"),
     [ReadPreparedOrder orderAccount; ReadRouterEndpoint localEndpoint]).
Proof. vm_compute. reflexivity. Qed.

Lemma placeMarketOrderCctpIx_destinationDomain_witness :
  In (_programId (client testnet)) PROGRAM_IDS /\
  (exists ix,
      placeMarketOrderCctpIx (client testnet) (placeAccounts orderAccount None)
        (placeArgs None (Some 3))
      = (Ok ix, [ReadPreparedOrder orderAccount; DeriveRouterEndpoint 2;
                 ComposeBurnAccounts usdc 3]) /\
      incl (burnRoles (depositForBurnWithCallerAccounts
                         (tokenMessengerMinterProgram (client testnet)) usdc 3))
           (accountsOf ix)) /\
  (exists ix,
      placeMarketOrderCctpIx (client testnet)
        (placeAccounts orderAccount (Some endpointAccount)) (placeArgs None None)
      = (Ok ix, [ReadPreparedOrder orderAccount; ReadRouterEndpoint endpointAccount;
                 ComposeBurnAccounts usdc 0]) /\
      incl (burnRoles (depositForBurnWithCallerAccounts
                         (tokenMessengerMinterProgram (client testnet)) usdc 0))
           (accountsOf ix)) /\
  placeMarketOrderCctpIx (client testnet)
    (placeAccounts orderAccount (Some localEndpoint)) (placeArgs None None)
  = (Throw (Error "invalid router endpoint"),
     [ReadPreparedOrder orderAccount; ReadRouterEndpoint localEndpoint]).
Proof.
  assert (Hknown : In (_programId (client testnet)) PROGRAM_IDS)
    by (right; left; reflexivity).
  assert (Horder : exists stored : PreparedOrder,
             preparedOrderAt (program_connection (client testnet)) orderAccount
             = Some stored /\
             isChainId (PreparedOrderInfo.targetChain (info stored)) = true /\
             bob = orElse None (PreparedOrderInfo.preparedBy (info stored)) /\
             2 = orElse None (PreparedOrderInfo.targetChain (info stored)) /\
             [ReadPreparedOrder orderAccount] = [ReadPreparedOrder orderAccount]).
  { eexists. split; [vm_compute; reflexivity|]. repeat split. }
  split; [exact Hknown|]. split; [|split].
  - destruct (placeMarketOrderCctpIx_destinationDomain (C := ideal)
                (client testnet) (placeAccounts orderAccount None)
                (placeArgs None (Some 3)))
      as (_ & _ & _ & _ & Hrun).
    destruct (Hrun bob 2 [ReadPreparedOrder orderAccount] Hknown Horder)
      as (me & _ & Hout).
    exact Hout.
  - destruct (placeMarketOrderCctpIx_destinationDomain (C := ideal)
                (client testnet) (placeAccounts orderAccount (Some endpointAccount))
                (placeArgs None None))
      as (_ & _ & _ & _ & Hrun).
    destruct (Hrun bob 2 [ReadPreparedOrder orderAccount] Hknown Horder)
      as (me & _ & Hout).
    exact Hout.
  - destruct (placeMarketOrderCctpIx_destinationDomain (C := ideal)
                (client testnet) (placeAccounts orderAccount (Some localEndpoint))
                (placeArgs None None))
      as (_ & _ & _ & _ & Hrun).
    destruct (Hrun bob 2 [ReadPreparedOrder orderAccount] Hknown Horder)
      as (me & _ & Hout).
    exact Hout.
Defined.

Lemma approveTransferAuthorityIx_delegates_amountIn_witness :
  encodable order100 = true /\
  exists transferAuthority : PublicKey,
    transferAuthorityAddress (client localnet) orderAccount order100
      = Ok transferAuthority /\
    approveTransferAuthorityIx (client localnet) approveAccounts order100 =
    (Ok {| ApproveTransferAuthority.transferAuthority := transferAuthority;
           ApproveTransferAuthority.ix :=
             ApproveInstruction aliceToken transferAuthority alice 5000 |},
     [ReadTokenAccount aliceToken]).
Proof.
  split; [reflexivity|].
  destruct (approveTransferAuthorityIx_delegates_amountIn (C := ideal)
              (client localnet) approveAccounts order100 eq_refl)
    as (transferAuthority & Haddress & Hrun).
  exists transferAuthority. split; [exact Haddress|].
  apply (Hrun {| owner := alice |}). reflexivity.
Defined.


(** The counterexample to C7 as stated: both networks resolve to the same
    token-messenger-minter and message-transmitter programs. *)
Lemma cctp_programs_shared_across_networks :
  exists ta tb : DependentPrograms,
    dependentPrograms (client localnet) = Ok ta /\
    dependentPrograms (client testnet) = Ok tb /\
    dp_tokenMessengerMinter ta = dp_tokenMessengerMinter tb /\
    dp_messageTransmitter ta = dp_messageTransmitter tb /\
    ~ every_dependent_program_differs ta tb.
Proof.
  destruct (dependentPrograms_localnet (C := ideal) (client localnet) eq_refl)
    as (l & _ & Hl).
  destruct (dependentPrograms_testnet (C := ideal) (client testnet) eq_refl)
    as (t & _ & Ht).
  eexists. eexists. split; [exact Hl|]. split; [exact Ht|].
  split; [reflexivity|]. split; [reflexivity|].
  intros (_ & _ & _ & Hdiffer & _). now apply Hdiffer.
Qed.

Lemma network_switch_selects_table_witness :
  _programId (client localnet) = localnet /\
  _programId (client testnet) = testnet /\
  exists ta tb : DependentPrograms,
    dependentPrograms (client localnet) = Ok ta /\
    dependentPrograms (client testnet) = Ok tb /\
    dp_coreBridge ta <> dp_coreBridge tb /\
    dp_upgradeManager ta <> dp_upgradeManager tb /\
    dp_matchingEngine ta = matchingEngineSdk_localnet /\
    dp_matchingEngine tb = matchingEngineSdk_testnet /\
    dp_tokenMessengerMinter ta = dp_tokenMessengerMinter tb /\
    dp_messageTransmitter ta = dp_messageTransmitter tb.
Proof.
  split; [reflexivity|]. split; [reflexivity|].
  apply (network_switch_selects_table (C := ideal)); reflexivity.
Defined.

(** C5 and C8 on the ledger. *)
Example unknown_network_fails_closed :
  coreBridgeProgramId (client foreign) = Throw (Error "unsupported network") /\
  upgradeManagerProgram (client foreign) = Throw (Error "unsupported network") /\
  matchingEngineProgram (client foreign) = Throw (Error "unsupported network").
Proof. repeat split. Qed.

Example close_reads_only_what_is_missing :
  snd (closePreparedOrderIx (client localnet) (closeAccounts (Some carol)))
    = [] /\
  snd (closePreparedOrderIx (client localnet) (closeAccounts None))
    = [ReadPreparedOrder orderAccount] /\
  (exists ix,
      fst (closePreparedOrderIx (client localnet) (closeAccounts None)) = Ok ix /\
      account "preparedBy" (accountsOf ix) = Some (Address bob) /\
      account "orderSender" (accountsOf ix) = Some (Address alice) /\
      account "refundToken" (accountsOf ix) = Some (Address aliceToken)).
Proof.
  split; [vm_compute; reflexivity|]. split; [vm_compute; reflexivity|].
  eexists. split; [vm_compute; reflexivity|]. repeat split.
Qed.

End Runs.

(** * Further properties *)

(** ** What the transfer authority binds, and what it does not *)

Section TransferAuthorityBinding.

Context {C : Collaborators}.

Lemma byte_of_Z_of_byte (b : byte) : byte_of_Z (Z_of_byte b) = b.
Proof.
  unfold byte_of_Z, Z_of_byte.
  assert (Hb : (Byte.to_N b <= 255)%N) by apply Byte.to_N_bounded.
  rewrite (Z.land_ones _ 8) by lia.
  rewrite Z.mod_small by (change (2 ^ 8) with 256; lia).
  rewrite N2Z.id. now rewrite Byte.of_to_N.
Qed.

Lemma Z_of_byte_range (b : byte) : octet (Z_of_byte b) = true.
Proof.
  unfold octet, Z_of_byte.
  assert (Hb : (Byte.to_N b <= 255)%N) by apply Byte.to_N_bounded.
  apply andb_true_iff. split; [apply Z.leb_le | apply Z.ltb_lt]; lia.
Qed.

Lemma byte_of_Z_mod (z : Z) : byte_of_Z (z mod 256) = byte_of_Z z.
Proof.
  unfold byte_of_Z. rewrite !(Z.land_ones _ 8) by lia.
  change (2 ^ 8) with 256. now rewrite Z.mod_mod by lia.
Qed.

Lemma from_array_map_Z_of_byte (b : Buffer) : from_array (map Z_of_byte b) = b.
Proof.
  unfold from_array. rewrite map_map.
  induction b as [|x b IH]; simpl; [reflexivity|].
  now rewrite byte_of_Z_of_byte, IH.
Qed.

Lemma be_bytes_two (b : Buffer) :
  List.length b = 2%nat -> be_bytes 2 (be_value b) = b.
Proof.
  destruct b as [|x [|y [|z b]]]; try discriminate. intros _.
  unfold be_value. cbn [fold_left be_bytes].
  change (8 * Z.of_nat 1) with 8. change (8 * Z.of_nat 0) with 0.
  rewrite Z.shiftr_0_r, Z.shiftr_div_pow2 by lia. change (2 ^ 8) with 256.
  pose proof (Z_of_byte_range x) as Hx. pose proof (Z_of_byte_range y) as Hy.
  unfold octet in Hx, Hy.
  replace ((0 * 256 + Z_of_byte x) * 256 + Z_of_byte y)
    with (Z_of_byte y + Z_of_byte x * 256) by lia.
  rewrite Z.div_add by lia. rewrite Z.div_small by lia.
  rewrite <- (byte_of_Z_mod (Z_of_byte y + Z_of_byte x * 256)).
  rewrite Z.mod_add by lia. rewrite byte_of_Z_mod.
  now rewrite Z.add_0_l, !byte_of_Z_of_byte.
Qed.

Lemma be_value_two (b : Buffer) :
  List.length b = 2%nat -> u16 (be_value b) = true.
Proof.
  destruct b as [|x [|y [|z b]]]; try discriminate. intros _.
  unfold be_value, u16. cbn [fold_left].
  pose proof (Z_of_byte_range x) as Hx. pose proof (Z_of_byte_range y) as Hy.
  unfold octet in Hx, Hy.
  apply andb_true_iff. split; [apply Z.leb_le | apply Z.leb_le]; lia.
Qed.

Lemma transferAuthorityAddress_chain_out_of_range
    (self : TokenRouterProgram) (preparedOrder : PublicKey)
    (args : PrepareMarketOrderArgs) :
  u64 (amountIn args) = true ->
  match minAmountOut args with Some m => u64 m | None => true end = true ->
  u16 (targetChain args) = false ->
  transferAuthorityAddress self preparedOrder args
  = Throw (RangeError "ERR_OUT_OF_RANGE").
Proof.
  intros Hamount Hmin Hchain.
  unfold transferAuthorityAddress.
  rewrite (uint64_buffer _ Hamount).
  unfold writeUInt16BE. fold (u16 (targetChain args)). rewrite Hchain.
  destruct (minAmountOut args) as [m|]; [|reflexivity].
  now rewrite (uint64_buffer _ Hmin).
Qed.

(** X1. With amounts that fit 64 bits, [transferAuthorityAddress] returns
    an address exactly when the chain fits 16 bits: it returns one when the
    chain does, and it throws the range error of [writeUInt16BE] when the
    chain does not. *)
Theorem transferAuthorityAddress_returns_iff_chain_fits
    (self : TokenRouterProgram) (preparedOrder : PublicKey)
    (args : PrepareMarketOrderArgs) :
  u64 (amountIn args) = true ->
  match minAmountOut args with Some m => u64 m | None => true end = true ->
  (u16 (targetChain args) = true ->
   transferAuthorityAddress self preparedOrder args
   = Ok (fst (findProgramAddressSync
                [from_string "transfer-authority";
                 toBuffer preparedOrder;
                 keccak256 (digestInput args)]
                (ID self)))) /\
  (u16 (targetChain args) = false ->
   transferAuthorityAddress self preparedOrder args
   = Throw (RangeError "ERR_OUT_OF_RANGE")) /\
  ((exists k, transferAuthorityAddress self preparedOrder args = Ok k)
   <-> u16 (targetChain args) = true).
Proof.
  intros Hamount Hmin.
  assert (Hfits : u16 (targetChain args) = true ->
                  transferAuthorityAddress self preparedOrder args
                  = Ok (fst (findProgramAddressSync
                               [from_string "transfer-authority";
                                toBuffer preparedOrder;
                                keccak256 (digestInput args)]
                               (ID self)))).
  { intros Hchain. apply transferAuthorityAddress_digestInput.
    unfold encodable. now rewrite Hamount, Hmin, Hchain. }
  split; [exact Hfits|].
  split; [now apply transferAuthorityAddress_chain_out_of_range|].
  split.
  - intros [k Hk]. destruct (u16 (targetChain args)) eqn:Hchain; [reflexivity|].
    rewrite (transferAuthorityAddress_chain_out_of_range self preparedOrder args
               Hamount Hmin Hchain) in Hk.
    discriminate Hk.
  - intros Hchain. eexists. now apply Hfits.
Qed.

(** X2. Redeemer entries are truncated to octets before hashing: two orders
    whose redeemers agree entry by entry modulo 256 (and agree elsewhere)
    get the same outcome from [transferAuthorityAddress]. *)
Theorem transferAuthorityAddress_redeemer_mod_256
    (self : TokenRouterProgram) (preparedOrder : PublicKey)
    (args : PrepareMarketOrderArgs) (r : list Z) :
  map (fun x => x mod 256) r = map (fun x => x mod 256) (redeemer args) ->
  transferAuthorityAddress self preparedOrder
    (withRedeemer args r (redeemerMessage args))
  = transferAuthorityAddress self preparedOrder args.
Proof.
  intros H.
  assert (Hbuf : from_array r = from_array (redeemer args)).
  { unfold from_array.
    rewrite <- (map_ext _ _ byte_of_Z_mod r).
    rewrite <- (map_ext _ _ byte_of_Z_mod (redeemer args)).
    rewrite <- !(map_map (fun x => x mod 256) byte_of_Z). now rewrite H. }
  unfold transferAuthorityAddress, withRedeemer.
  cbn [amountIn minAmountOut targetChain redeemer redeemerMessage].
  now rewrite Hbuf.
Qed.

(** X3. Nothing marks where the redeemer ends and the message begins: moving
    the last redeemer entry to the front of the message leaves the outcome
    of [transferAuthorityAddress] unchanged. *)
Theorem transferAuthorityAddress_redeemer_message_boundary
    (self : TokenRouterProgram) (preparedOrder : PublicKey)
    (args : PrepareMarketOrderArgs) (r : list Z) (last : Z) (message : Buffer) :
  transferAuthorityAddress self preparedOrder
    (withRedeemer args (r ++ [last]) message)
  = transferAuthorityAddress self preparedOrder
      (withRedeemer args r (byte_of_Z last :: message)).
Proof.
  unfold transferAuthorityAddress, withRedeemer.
  cbn [amountIn minAmountOut targetChain redeemer redeemerMessage
       bind result_monad ret].
  repeat (match goal with
          | |- context [uint64ToBN ?v] => destruct (uint64ToBN v)
          | |- context [BN_toBuffer_be ?v ?n] => destruct (BN_toBuffer_be v n)
          | |- context [minAmountOut ?a] => destruct (minAmountOut a)
          | |- context [writeUInt16BE ?b ?v] => destruct (writeUInt16BE b v)
          end; cbn [bind result_monad ret]); try reflexivity;
    unfold Keccak.digest, Keccak.update, from_array; cbn [Keccak.absorbed];
    rewrite map_app; cbn [map]; now rewrite <- !app_assoc.
Qed.

Lemma fed_length (args : PrepareMarketOrderArgs) (m : Z) :
  List.length (redeemer args) = 32%nat ->
  List.length (be_bytes 8 m ++ be_bytes 2 (targetChain args)
               ++ from_array (redeemer args)) = 42%nat.
Proof.
  intros H. unfold from_array.
  rewrite !length_app, !length_be_bytes, length_map, H. reflexivity.
Qed.

Lemma OrderParameters_fields (args : PrepareMarketOrderArgs) :
  OrderParameters args = true ->
  encodable args = true /\
  List.length (redeemer args) = 32%nat /\
  forallb octet (redeemer args) = true.
Proof.
  unfold OrderParameters. intros H.
  apply andb_true_iff in H as [H Hoctets].
  apply andb_true_iff in H as [Henc Hlen].
  apply Nat.eqb_eq in Hlen. now repeat split.
Qed.

(** X4. The presence of [minAmountOut] is not marked in what is hashed: for
    every order of the data model that carries a [minAmountOut] there is an
    order of the data model without one, for the same [amountIn], that
    [transferAuthorityAddress] maps to the same address for every prepared
    order. *)
Theorem transferAuthorityAddress_presence_not_marked
    (args : PrepareMarketOrderArgs) (m : Z) :
  OrderParameters args = true ->
  minAmountOut args = Some m ->
  OrderParameters (absorbMinimum args m) = true /\
  minAmountOut (absorbMinimum args m) = None /\
  amountIn (absorbMinimum args m) = amountIn args /\
  forall (self : TokenRouterProgram) (preparedOrder : PublicKey),
    exists k,
      transferAuthorityAddress self preparedOrder args = Ok k /\
      transferAuthorityAddress self preparedOrder (absorbMinimum args m) = Ok k.
Proof.
  intros Hwf Hmin.
  destruct (OrderParameters_fields _ Hwf) as (Henc & Hlen & Hoctets).
  destruct (encodable_fields _ Henc) as (Hamount & _ & _).
  pose proof (fed_length args m Hlen) as Hfed.
  set (fed := be_bytes 8 m ++ be_bytes 2 (targetChain args)
              ++ from_array (redeemer args)) in *.
  assert (Htwo : List.length (firstn 2 fed) = 2%nat)
    by (rewrite length_firstn, Hfed; reflexivity).
  assert (Hwf' : OrderParameters (absorbMinimum args m) = true).
  { unfold OrderParameters, encodable, absorbMinimum.
    cbn [amountIn minAmountOut targetChain redeemer redeemerMessage].
    fold fed. clearbody fed. rewrite Hamount, (be_value_two _ Htwo).
    rewrite length_map, length_firstn, length_skipn, Hfed.
    change (Nat.eqb (Nat.min 32 (42 - 2)) 32) with true. cbn [andb].
    rewrite forallb_forall. intros x Hx. apply in_map_iff in Hx as (b & <- & _).
    apply Z_of_byte_range. }
  split; [exact Hwf'|]. split; [reflexivity|]. split; [reflexivity|].
  intros self preparedOrder.
  destruct (OrderParameters_fields _ Hwf') as (Henc' & _ & _).
  eexists. split; [now apply transferAuthorityAddress_digestInput|].
  rewrite (transferAuthorityAddress_digestInput _ _ _ Henc').
  do 4 f_equal.
  unfold digestInput at 1. unfold absorbMinimum.
  cbn [amountIn minAmountOut targetChain redeemer redeemerMessage].
  fold fed. rewrite (be_bytes_two _ Htwo), from_array_map_Z_of_byte.
  unfold digestInput. rewrite Hmin. f_equal. cbn [app].
  rewrite (app_assoc (firstn 32 (skipn 2 fed))).
  replace (skipn 34 fed) with (skipn 32 (skipn 2 fed))
    by (now rewrite skipn_skipn).
  rewrite firstn_skipn, (app_assoc (firstn 2 fed)), firstn_skipn.
  unfold fed. now rewrite <- !app_assoc.
Qed.

Lemma app_same_length {A} (x y a b : list A) :
  List.length x = List.length y -> x ++ a = y ++ b -> x = y /\ a = b.
Proof.
  revert y. induction x as [|h x IH]; intros [|h' y] Hlen H;
    try discriminate Hlen.
  - now split.
  - injection Hlen as Hlen. injection H as -> H.
    destruct (IH y Hlen H) as [-> ->]. now split.
Qed.

Lemma be_bytes_u64_inj (v w : Z) :
  u64 v = true -> u64 w = true -> be_bytes 8 v = be_bytes 8 w -> v = w.
Proof.
  intros Hv Hw H. apply (f_equal be_value) in H.
  now rewrite !be_value_u64 in H.
Qed.

Lemma be_bytes_u16_inj (v w : Z) :
  u16 v = true -> u16 w = true -> be_bytes 2 v = be_bytes 2 w -> v = w.
Proof.
  intros Hv Hw H. apply (f_equal be_value) in H.
  now rewrite !be_value_u16 in H.
Qed.

Lemma from_array_octets_inj (r s : list Z) :
  forallb octet r = true -> forallb octet s = true ->
  from_array r = from_array s -> r = s.
Proof.
  intros Hr Hs H. apply (f_equal (map Z_of_byte)) in H.
  now rewrite !raw_redeemer in H.
Qed.

Lemma digestInput_inj (a1 a2 : PrepareMarketOrderArgs) :
  OrderParameters a1 = true ->
  OrderParameters a2 = true ->
  (minAmountOut a1 = None <-> minAmountOut a2 = None) ->
  digestInput a1 = digestInput a2 -> a1 = a2.
Proof.
  intros Hwf1 Hwf2 Hpresence Hdigest.
  destruct (OrderParameters_fields _ Hwf1) as (Henc1 & Hlen1 & Hoct1).
  destruct (OrderParameters_fields _ Hwf2) as (Henc2 & Hlen2 & Hoct2).
  destruct (encodable_fields _ Henc1) as (Hamt1 & Hmin1 & Hch1).
  destruct (encodable_fields _ Henc2) as (Hamt2 & Hmin2 & Hch2).
  unfold digestInput in Hdigest.
  apply app_same_length in Hdigest as [Hamount Hrest];
    [|now rewrite !length_be_bytes].
  apply be_bytes_u64_inj in Hamount; [|assumption..].
  assert (Hmin : minAmountOut a1 = minAmountOut a2 /\
                 be_bytes 2 (targetChain a1) ++ from_array (redeemer a1)
                   ++ redeemerMessage a1
                 = be_bytes 2 (targetChain a2) ++ from_array (redeemer a2)
                   ++ redeemerMessage a2).
  { destruct (minAmountOut a1) as [m1|] eqn:E1,
             (minAmountOut a2) as [m2|] eqn:E2.
    - apply app_same_length in Hrest as [Hm Hrest];
        [|now rewrite !length_be_bytes].
      apply be_bytes_u64_inj in Hm; [|now auto..]. now subst.
    - destruct Hpresence as [_ Habs]. discriminate (Habs eq_refl).
    - destruct Hpresence as [Habs _]. discriminate (Habs eq_refl).
    - now split. }
  destruct Hmin as [Hmin Htail].
  apply app_same_length in Htail as [Hchain Htail];
    [|now rewrite !length_be_bytes].
  apply be_bytes_u16_inj in Hchain; [|assumption..].
  apply app_same_length in Htail as [Hredeemer Hmessage];
    [|unfold from_array; now rewrite !length_map, Hlen1, Hlen2].
  apply from_array_octets_inj in Hredeemer; [|assumption..].
  destruct a1, a2. cbn in *. now subst.
Qed.

(** X5. The transfer authority binds the prepared order and every term of
    the order, up to collisions of the hash and of the address derivation:
    for two orders of the data model that both carry, or both lack, a
    [minAmountOut], [transferAuthorityAddress] returns an address for each,
    and if the two addresses are the same then the prepared-order keys have
    the same octets and the orders are equal, or Keccak gives one digest
    for the two different digest inputs, or the derivation gives one
    address for the two different seed sequences. *)
Theorem transferAuthorityAddress_binds_order
    (self : TokenRouterProgram) (po1 po2 : PublicKey)
    (a1 a2 : PrepareMarketOrderArgs) :
  OrderParameters a1 = true ->
  OrderParameters a2 = true ->
  (minAmountOut a1 = None <-> minAmountOut a2 = None) ->
  let seeds (preparedOrder : PublicKey) (args : PrepareMarketOrderArgs) :=
    [from_string "transfer-authority"; toBuffer preparedOrder;
     keccak256 (digestInput args)] in
  exists k1 k2 : PublicKey,
    transferAuthorityAddress self po1 a1 = Ok k1 /\
    transferAuthorityAddress self po2 a2 = Ok k2 /\
    (k1 = k2 ->
     (toBuffer po1 = toBuffer po2 /\ a1 = a2) \/
     (digestInput a1 <> digestInput a2 /\
      keccak256 (digestInput a1) = keccak256 (digestInput a2)) \/
     (seeds po1 a1 <> seeds po2 a2 /\
      fst (findProgramAddressSync (seeds po1 a1) (ID self))
      = fst (findProgramAddressSync (seeds po2 a2) (ID self)))).
Proof.
  intros Hwf1 Hwf2 Hpresence seeds.
  destruct (OrderParameters_fields _ Hwf1) as (Henc1 & _ & _).
  destruct (OrderParameters_fields _ Hwf2) as (Henc2 & _ & _).
  exists (fst (findProgramAddressSync (seeds po1 a1) (ID self))),
         (fst (findProgramAddressSync (seeds po2 a2) (ID self))).
  split; [now apply transferAuthorityAddress_digestInput|].
  split; [now apply transferAuthorityAddress_digestInput|].
  intros Hsame.
  destruct (list_eq_dec Buffer_eq_dec (seeds po1 a1) (seeds po2 a2))
    as [Hseeds | Hseeds]; [|right; right; now split].
  injection Hseeds as Hpo Hdigest.
  destruct (Buffer_eq_dec (digestInput a1) (digestInput a2))
    as [Hfed | Hfed]; [|right; left; now split].
  left. split; [exact Hpo|]. now apply digestInput_inj.
Qed.

End TransferAuthorityBinding.

(** ** Approving, preparing and closing: the other paths *)

Section PrepareOtherPaths.

Context {C : Collaborators}.
Variable self : TokenRouterProgram.

Arguments encodePrepareMarketOrder : simpl never.



(** X8. [approveTransferAuthorityIx] looks the owner up before it looks at
    the order: with no [senderTokenAuthority] and no token account at
    [senderToken] it fails with the lookup error after that one read,
    whatever the order is; with a given authority, amounts that fit 64 bits
    and a chain that does not fit 16 bits it fails with the range error of
    [writeUInt16BE] without reading anything. *)
Theorem approveTransferAuthorityIx_failures
    (accounts : ApproveTransferAuthority.accounts)
    (args : PrepareMarketOrderArgs) :
  (ApproveTransferAuthority.senderTokenAuthority accounts = None ->
   tokenAccountAt (program_connection self)
     (ApproveTransferAuthority.senderToken accounts) = None ->
   approveTransferAuthorityIx self accounts args =
   (Throw (AccountNotFound
             (toBuffer (ApproveTransferAuthority.senderToken accounts))),
    [ReadTokenAccount (ApproveTransferAuthority.senderToken accounts)])) /\
  (forall given : PublicKey,
      ApproveTransferAuthority.senderTokenAuthority accounts = Some given ->
      u64 (amountIn args) = true ->
      match minAmountOut args with Some m => u64 m | None => true end = true ->
      u16 (targetChain args) = false ->
      approveTransferAuthorityIx self accounts args =
      (Throw (RangeError "ERR_OUT_OF_RANGE"), [])).
Proof.
  split.
  - intros Hnone Habsent.
    unfold approveTransferAuthorityIx, splToken.getAccount, fetch.
    rewrite Hnone, Habsent. reflexivity.
  - intros given Hgiven Hamount Hmin Hchain.
    unfold approveTransferAuthorityIx.
    rewrite Hgiven, (transferAuthorityAddress_chain_out_of_range self
                       (ApproveTransferAuthority.preparedOrder accounts) args
                       Hamount Hmin Hchain).
    reflexivity.
Qed.

(** X9. On the approving path a failed owner lookup is the failure of
    [prepareMarketOrderIx]: with no explicit authority, the flag true or
    left out, no [senderTokenAuthority] and no token account at
    [senderToken], the call fails with the lookup error after that one read
    and returns no instruction. *)
Theorem prepareMarketOrderIx_owner_not_found
    (accounts : PrepareMarketOrder.accounts) (args : PrepareMarketOrder.args) :
  PrepareMarketOrder.programTransferAuthority accounts = None ->
  orElse (PrepareMarketOrder.useTransferAuthority args) true = true ->
  PrepareMarketOrder.senderTokenAuthority accounts = None ->
  tokenAccountAt (program_connection self)
    (PrepareMarketOrder.senderToken accounts) = None ->
  prepareMarketOrderIx self accounts args =
  (Throw (AccountNotFound (toBuffer (PrepareMarketOrder.senderToken accounts))),
   [ReadTokenAccount (PrepareMarketOrder.senderToken accounts)]).
Proof.
  intros Hnone Huse Hauthority Habsent.
  unfold prepareMarketOrderIx, approveTransferAuthorityIx, splToken.getAccount,
    fetch.
  rewrite Hnone, Huse.
  cbn [ApproveTransferAuthority.senderTokenAuthority
       ApproveTransferAuthority.senderToken].
  rewrite Hauthority, Habsent. reflexivity.
Qed.

(** X10. When one of [preparedBy], [orderSender], [refundToken] is left out
    and no prepared order is stored at the given address,
    [closePreparedOrderIx] fails with the lookup error after that one read
    and returns no instruction. *)
Theorem closePreparedOrderIx_order_not_found
    (accounts : ClosePreparedOrder.accounts) :
  ClosePreparedOrder.preparedBy accounts = None \/
  ClosePreparedOrder.orderSender accounts = None \/
  ClosePreparedOrder.refundToken accounts = None ->
  preparedOrderAt (program_connection self)
    (ClosePreparedOrder.preparedOrder accounts) = None ->
  closePreparedOrderIx self accounts =
  (Throw (AccountNotFound (toBuffer (ClosePreparedOrder.preparedOrder accounts))),
   [ReadPreparedOrder (ClosePreparedOrder.preparedOrder accounts)]).
Proof.
  intros Hmissing Habsent.
  unfold closePreparedOrderIx, fetchPreparedOrder, fetch. rewrite Habsent.
  destruct (ClosePreparedOrder.preparedBy accounts) as [p|],
           (ClosePreparedOrder.orderSender accounts) as [o|],
           (ClosePreparedOrder.refundToken accounts) as [r|];
    try (exfalso; destruct Hmissing as [H | [H | H]]; discriminate H);
    reflexivity.
Qed.

End PrepareOtherPaths.

(** ** Placing an order: the other paths *)

Section PlaceOtherPaths.

Context {C : Collaborators}.
Variable self : TokenRouterProgram.

Arguments PublicKey_new : simpl never.
Arguments PublicKey_of_literal : simpl never.

Lemma resolvePreparedOrder_reads
    (preparedOrder : PublicKey) (preparedBy : option PublicKey)
    (targetChain : option Z) (r : result (PublicKey * Z)) (t : list Event) :
  resolvePreparedOrder self preparedOrder preparedBy targetChain = (r, t) ->
  forall ev, In ev t -> ev = ReadPreparedOrder preparedOrder.
Proof.
  unfold resolvePreparedOrder, fetchPreparedOrder, fetch, catch.
  destruct (preparedOrderAt (program_connection self) preparedOrder) as [stored|];
    destruct preparedBy, targetChain; cbn;
    try destruct (isChainId (PreparedOrderInfo.targetChain (info stored))); cbn;
    intros H; injection H as <- <-; intros ev Hev; simpl in Hev;
    intuition congruence.
Qed.

(** X11. With [preparedBy], [targetChain] and [destinationDomain] all given
    on a known network, [placeMarketOrderCctpIx] reads nothing from the
    ledger and returns an instruction: the prepared order is not fetched
    and the given chain is not checked against the chain-id table.  The
    router endpoint is the given one, else the one derived for the given
    chain. *)
Theorem placeMarketOrderCctpIx_all_given
    (accounts : PlaceMarketOrderCctp.accounts) (args : PlaceMarketOrderCctp.args)
    (preparedBy : PublicKey) (targetChain destinationDomain : Z) :
  In (_programId self) PROGRAM_IDS ->
  PlaceMarketOrderCctp.preparedBy accounts = Some preparedBy ->
  PlaceMarketOrderCctp.targetChain args = Some targetChain ->
  PlaceMarketOrderCctp.destinationDomain args = Some destinationDomain ->
  exists matchingEngine ix,
    matchingEngineProgram self = Ok matchingEngine /\
    placeMarketOrderCctpIx self accounts args =
    (Ok ix,
     match PlaceMarketOrderCctp.routerEndpoint accounts with
     | Some _ => []
     | None => [DeriveRouterEndpoint targetChain]
     end ++ [ComposeBurnAccounts (mint self) destinationDomain]) /\
    account "preparedBy" (accountsOf ix) = Some (Address preparedBy) /\
    account "routerEndpoint" (accountsOf ix) =
    Some (Address (orElse (PlaceMarketOrderCctp.routerEndpoint accounts)
                          (routerEndpointAddress matchingEngine targetChain))).
Proof.
  intros Hknown Hby Hchain Hdomain.
  destruct (known_network self Hknown) as (me & cb & Hme & _ & Hcb).
  exists me. unfold placeMarketOrderCctpIx, publishMessageAccounts.
  rewrite Hby, Hchain, Hdomain, Hme, Hcb.
  destruct (PlaceMarketOrderCctp.routerEndpoint accounts) as [given|];
    eexists; cbn; repeat split.
Qed.

(** X12. On an identity outside the known program ids
    [placeMarketOrderCctpIx] never returns an instruction, and the only
    thing it can have done is to read the prepared order: no router
    endpoint is derived or read and no burn accounts are composed.  When
    [preparedBy] and [targetChain] are both given it fails with
    "unsupported network" at once. *)
Theorem placeMarketOrderCctpIx_unknown_network
    (accounts : PlaceMarketOrderCctp.accounts) (args : PlaceMarketOrderCctp.args) :
  ~ In (_programId self) PROGRAM_IDS ->
  (exists e, fst (placeMarketOrderCctpIx self accounts args) = Throw e) /\
  (forall ev,
      In ev (snd (placeMarketOrderCctpIx self accounts args)) ->
      ev = ReadPreparedOrder (PlaceMarketOrderCctp.preparedOrder accounts)) /\
  (PlaceMarketOrderCctp.preparedBy accounts <> None ->
   PlaceMarketOrderCctp.targetChain args <> None ->
   placeMarketOrderCctpIx self accounts args =
   (Throw (Error "unsupported network"), [])).
Proof.
  intros Hunknown.
  pose proof (network_resolution_unknown self Hunknown) as (_ & Hme & _).
  split; [|split].
  - destruct (placeMarketOrderCctpIx self accounts args) as [r t] eqn:Hrun.
    destruct (placeMarketOrderCctpIx_blocks self accounts args) as (build & Hb & _).
    rewrite Hb in Hrun. clear Hb.
    apply bind_inv in Hrun
      as [(e & _ & ->) | ([pb tc] & t1 & t' & _ & Hrun & ->)];
      [now exists e|].
    rewrite Hme in Hrun. cbn in Hrun. injection Hrun as <- _.
    now eexists.
  - destruct (placeMarketOrderCctpIx self accounts args) as [r t] eqn:Hrun.
    destruct (placeMarketOrderCctpIx_blocks self accounts args) as (build & Hb & _).
    rewrite Hb in Hrun. clear Hb. cbn [snd].
    apply bind_inv in Hrun
      as [(e & Hres & _) | ([pb tc] & t1 & t' & Hres & Hrun & ->)].
    + intros ev Hev. eapply resolvePreparedOrder_reads; eassumption.
    + rewrite Hme in Hrun. cbn in Hrun. injection Hrun as _ <-.
      rewrite app_nil_r.
      intros ev Hev. eapply resolvePreparedOrder_reads; eassumption.
  - intros Hby Hchain. unfold placeMarketOrderCctpIx.
    destruct (PlaceMarketOrderCctp.preparedBy accounts) as [p|];
      [|now contradiction Hby].
    destruct (PlaceMarketOrderCctp.targetChain args) as [t|];
      [|now contradiction Hchain].
    rewrite Hme. reflexivity.
Qed.

(** X13. Only what the caller left out is taken from the stored order, but
    the stored chain is always the one checked: when [preparedBy] or
    [targetChain] is left out and the stored order holds a recognised
    chain, [preparedBy] is the given one, else the stored one, and the
    router endpoint is derived for the given chain, else for the stored
    one. *)
Theorem placeMarketOrderCctpIx_given_chain_overrides_stored
    (accounts : PlaceMarketOrderCctp.accounts) (args : PlaceMarketOrderCctp.args)
    (stored : PreparedOrder) (destinationDomain : Z) :
  In (_programId self) PROGRAM_IDS ->
  PlaceMarketOrderCctp.preparedBy accounts = None \/
  PlaceMarketOrderCctp.targetChain args = None ->
  PlaceMarketOrderCctp.routerEndpoint accounts = None ->
  PlaceMarketOrderCctp.destinationDomain args = Some destinationDomain ->
  preparedOrderAt (program_connection self)
    (PlaceMarketOrderCctp.preparedOrder accounts) = Some stored ->
  isChainId (PreparedOrderInfo.targetChain (info stored)) = true ->
  let chain := orElse (PlaceMarketOrderCctp.targetChain args)
                      (PreparedOrderInfo.targetChain (info stored)) in
  exists matchingEngine ix,
    matchingEngineProgram self = Ok matchingEngine /\
    placeMarketOrderCctpIx self accounts args =
    (Ok ix,
     [ReadPreparedOrder (PlaceMarketOrderCctp.preparedOrder accounts);
      DeriveRouterEndpoint chain;
      ComposeBurnAccounts (mint self) destinationDomain]) /\
    account "preparedBy" (accountsOf ix)
    = Some (Address (orElse (PlaceMarketOrderCctp.preparedBy accounts)
                            (PreparedOrderInfo.preparedBy (info stored)))) /\
    account "routerEndpoint" (accountsOf ix)
    = Some (Address (routerEndpointAddress matchingEngine chain)).
Proof.
  intros Hknown Hmissing Hendpoint Hdomain Hstored Hvalid chain. subst chain.
  destruct (known_network self Hknown) as (me & cb & Hme & _ & Hcb).
  exists me.
  unfold placeMarketOrderCctpIx, publishMessageAccounts, fetchPreparedOrder,
    fetch.
  rewrite Hendpoint, Hdomain, Hme, Hcb, Hstored.
  destruct (PlaceMarketOrderCctp.preparedBy accounts) as [p|],
           (PlaceMarketOrderCctp.targetChain args) as [t|];
    try (exfalso; destruct Hmissing as [H | H]; discriminate H);
    cbn [catch emit bind async_monad ret throw app]; rewrite Hvalid;
    eexists; cbn; repeat split.
Qed.

(** X14. With no [destinationDomain] given and no router endpoint record at
    the given [routerEndpoint], [placeMarketOrderCctpIx] fails with the
    lookup error (not with "invalid router endpoint") after reading that
    one address, and composes no burn accounts. *)
Theorem placeMarketOrderCctpIx_endpoint_not_found
    (accounts : PlaceMarketOrderCctp.accounts) (args : PlaceMarketOrderCctp.args)
    (preparedBy routerEndpoint : PublicKey) (targetChain : Z) :
  In (_programId self) PROGRAM_IDS ->
  PlaceMarketOrderCctp.preparedBy accounts = Some preparedBy ->
  PlaceMarketOrderCctp.routerEndpoint accounts = Some routerEndpoint ->
  PlaceMarketOrderCctp.targetChain args = Some targetChain ->
  PlaceMarketOrderCctp.destinationDomain args = None ->
  routerEndpointAt (program_connection self) routerEndpoint = None ->
  placeMarketOrderCctpIx self accounts args =
  (Throw (AccountNotFound (toBuffer routerEndpoint)),
   [ReadRouterEndpoint routerEndpoint]).
Proof.
  intros Hknown Hby Hendpoint Hchain Hdomain Habsent.
  destruct (known_network self Hknown) as (me & cb & Hme & Hconn & Hcb).
  unfold placeMarketOrderCctpIx.
  rewrite Hby, Hendpoint, Hchain, Hdomain, Hme.
  cbn [bind async_monad ret lift]. unfold fetchRouterEndpointInfo, fetch.
  rewrite Hconn, Habsent. reflexivity.
Qed.

End PlaceOtherPaths.

(** ** Initialising, ownership and the common accounts *)

Section StaticAccounts.

Context {C : Collaborators} {P : Counterparts}.
Variable self : TokenRouterProgram.

Arguments PublicKey_new : simpl never.
Arguments PublicKey_of_literal : simpl never.
Arguments encodePrepareMarketOrder : simpl never.

(** X15. [initializeIx] fails with "unsupported network" on an identity
    outside the known program ids and otherwise returns an instruction
    without reading the ledger.  A given mint replaces the program's mint in
    the [mint] account only: the [cctpMintRecipient] account stays the
    associated token account of the mint the client was built with. *)
Theorem initializeIx_mint_and_recipient (accounts : Initialize.accounts) :
  (~ In (_programId self) PROGRAM_IDS ->
   initializeIx self accounts = (Throw (Error "unsupported network"), [])) /\
  (In (_programId self) PROGRAM_IDS ->
   exists ix,
     initializeIx self accounts = (Ok ix, []) /\
     accountAt ["mint"; "mint"] (Composite (accountsOf ix))
     = Some (Address (orElse (Initialize.mint accounts) (_mint self))) /\
     account "cctpMintRecipient" (accountsOf ix)
     = Some (Address
               (fst (findProgramAddressSync
                       [toBuffer (custodianAddress self);
                        toBuffer splToken.TOKEN_PROGRAM_ID;
                        toBuffer (_mint self)]
                       splToken.ASSOCIATED_TOKEN_PROGRAM_ID)))).
Proof.
  split.
  - intros H. destruct (network_resolution_unknown self H) as (Hum & _ & _).
    unfold initializeIx. rewrite Hum. reflexivity.
  - intros H.
    destruct (network_resolution_cases self H) as (um & me & cb & Hum & _ & _).
    unfold initializeIx. rewrite Hum. eexists. cbn. repeat split.
Qed.

(** The ownership instructions consult neither the network table nor the
    ledger: for every identity, known or not, each returns an instruction
    without a read, and its custodian account is the given custodian, else
    the custodian address derived from the program id. *)
Lemma ownership_instructions_need_no_network :
  (forall accounts,
      exists ix,
        submitOwnershipTransferIx self accounts = (Ok ix, []) /\
        accountAt ["admin"; "custodian"] (Composite (accountsOf ix))
        = Some (Address (orElse (SubmitOwnershipTransfer.custodian accounts)
                                (custodianAddress self)))) /\
  (forall accounts,
      exists ix,
        confirmOwnershipTransferIx self accounts = (Ok ix, []) /\
        account "custodian" (accountsOf ix)
        = Some (Address (orElse (ConfirmOwnershipTransfer.custodian accounts)
                                (custodianAddress self)))) /\
  (forall accounts,
      exists ix,
        cancelOwnershipTransferIx self accounts = (Ok ix, []) /\
        accountAt ["admin"; "custodian"] (Composite (accountsOf ix))
        = Some (Address (orElse (CancelOwnershipTransfer.custodian accounts)
                                (custodianAddress self)))) /\
  (forall accounts,
      exists ix,
        updateOwnerAssistantIx self accounts = (Ok ix, []) /\
        accountAt ["admin"; "custodian"] (Composite (accountsOf ix))
        = Some (Address (orElse (UpdateOwnerAssistant.custodian accounts)
                                (custodianAddress self)))).
Proof.
  repeat split; intros accounts; eexists; split; reflexivity.
Qed.

(** X16. [commonAccounts] fails with "unsupported network" on an identity
    outside the known program ids.  On a known one it returns the bundle
    without reading the ledger, and the bundle agrees with the dedicated
    methods: its custodian is [custodianAddress], its mint recipient is
    [cctpMintRecipientAddress], its core-bridge accounts are those of
    [publishMessageAccounts] for the custodian, its three matching-engine
    entries (program, custodian and CCTP mint recipient) are those of the
    engine selected for the network, and its CCTP entries are those of the
    token-messenger-minter and message-transmitter clients for the
    program's mint. *)
Theorem commonAccounts_agrees_with_methods :
  (~ In (_programId self) PROGRAM_IDS ->
   commonAccounts self = (Throw (Error "unsupported network"), [])) /\
  (In (_programId self) PROGRAM_IDS ->
   exists common publish matchingEngine,
     commonAccounts self = (Ok common, []) /\
     publishMessageAccounts self (custodianAddress self) = Ok publish /\
     matchingEngineProgram self = Ok matchingEngine /\
     Common.custodian common = custodianAddress self /\
     cctpMintRecipientAddress self = Ok (Common.cctpMintRecipient common) /\
     Common.mint common = _mint self /\
     Common.coreBridgeConfig common = coreBridgeConfig publish /\
     Common.coreEmitterSequence common = coreEmitterSequence publish /\
     Common.coreFeeCollector common = coreFeeCollector publish /\
     Common.coreBridgeProgram common = coreBridgeProgram publish /\
     Common.matchingEngineProgram common = me_ID matchingEngine /\
     Common.matchingEngineCustodian common = me_custodianAddress matchingEngine /\
     Common.matchingEngineCctpMintRecipient common
     = me_cctpMintRecipientAddress matchingEngine /\
     Common.tokenRouterProgram common = ID self /\
     Common.tokenMessenger common
     = tmm_tokenMessengerAddress (tokenMessengerMinterProgram self) /\
     Common.tokenMinter common
     = tmm_tokenMinterAddress (tokenMessengerMinterProgram self) /\
     Common.tokenMessengerMinterSenderAuthority common
     = tmm_senderAuthorityAddress (tokenMessengerMinterProgram self) /\
     Common.tokenMessengerMinterProgram common
     = tmm_ID (tokenMessengerMinterProgram self) /\
     Common.messageTransmitterAuthority common
     = mt_authorityAddress (messageTransmitterProgram self)
         (tmm_ID (tokenMessengerMinterProgram self)) /\
     Common.messageTransmitterConfig common
     = mt_messageTransmitterConfigAddress (messageTransmitterProgram self) /\
     Common.messageTransmitterProgram common
     = mt_ID (messageTransmitterProgram self) /\
     Common.localToken common
     = tmm_localTokenAddress (tokenMessengerMinterProgram self) (_mint self) /\
     Common.tokenMessengerMinterCustodyToken common
     = tmm_custodyTokenAddress (tokenMessengerMinterProgram self) (_mint self)).
Proof.
  split.
  - intros H. destruct (network_resolution_unknown self H) as (_ & _ & Hcb).
    unfold commonAccounts, publishMessageAccounts. rewrite Hcb. reflexivity.
  - intros H.
    destruct (network_resolution_cases self H) as (um & me & cb & _ & Hme & Hcb).
    unfold commonAccounts, publishMessageAccounts. rewrite Hcb, Hme.
    eexists. eexists. eexists. cbn. repeat split.
Qed.

(** The pipeline of [placeMarketOrderCctpIx] again, this time with the
    roles its last step fills from what the earlier steps resolved. *)
Lemma placeMarketOrderCctpIx_blocks_roles
    (accounts : PlaceMarketOrderCctp.accounts) (args : PlaceMarketOrderCctp.args) :
  exists build : PublicKey -> PublicKey -> Z -> PublishMessageAccounts
                 -> TransactionInstruction,
    placeMarketOrderCctpIx self accounts args =
    ('(preparedBy, targetChain) <- resolvePreparedOrder self
                   (PlaceMarketOrderCctp.preparedOrder accounts)
                   (PlaceMarketOrderCctp.preparedBy accounts)
                   (PlaceMarketOrderCctp.targetChain args);;
     matchingEngine <- lift (matchingEngineProgram self);;
     routerEndpoint <- resolveRouterEndpoint matchingEngine
                         (PlaceMarketOrderCctp.routerEndpoint accounts)
                         targetChain;;
     destinationDomain <- resolveDestinationDomain matchingEngine routerEndpoint
                            (PlaceMarketOrderCctp.destinationDomain args);;
     _ <- emit (ComposeBurnAccounts (mint self) destinationDomain);;
     publish <- lift (publishMessageAccounts self (custodianAddress self));;
     ret (build preparedBy routerEndpoint destinationDomain publish)) /\
    (forall preparedBy routerEndpoint destinationDomain publish,
        let roles :=
          accountsOf (build preparedBy routerEndpoint destinationDomain publish) in
        account "preparedBy" roles = Some (Address preparedBy) /\
        account "routerEndpoint" roles = Some (Address routerEndpoint) /\
        account "custodian" roles
        = Some (Composite [("custodian", Address (custodianAddress self))]) /\
        account "mint" roles = Some (Address (_mint self)) /\
        account "preparedCustodyToken" roles
        = Some (Address (preparedCustodyTokenAddress self
                           (PlaceMarketOrderCctp.preparedOrder accounts))) /\
        account "coreBridgeConfig" roles = Some (Address (coreBridgeConfig publish)) /\
        account "coreEmitterSequence" roles
        = Some (Address (coreEmitterSequence publish)) /\
        account "coreFeeCollector" roles = Some (Address (coreFeeCollector publish)) /\
        account "coreBridgeProgram" roles
        = Some (Address (coreBridgeProgram publish)) /\
        account "tokenProgram" roles = Some (Address splToken.TOKEN_PROGRAM_ID) /\
        account "systemProgram" roles = Some (Address SystemProgram_programId) /\
        account "rent" roles = Some (Address SYSVAR_RENT_PUBKEY) /\
        account "clock" roles = Some (Address SYSVAR_CLOCK_PUBKEY)).
Proof.
  eexists. split.
  - unfold placeMarketOrderCctpIx, resolvePreparedOrder, resolveRouterEndpoint,
      resolveDestinationDomain.
    reflexivity.
  - intros preparedBy routerEndpoint destinationDomain publish roles.
    subst roles. cbn [accountsOf]. repeat split.
Qed.

(** A returned instruction is the last step applied to a resolved
    [publishMessageAccounts]. *)
Lemma placeMarketOrderCctpIx_returns
    (accounts : PlaceMarketOrderCctp.accounts) (args : PlaceMarketOrderCctp.args)
    (build : PublicKey -> PublicKey -> Z -> PublishMessageAccounts
             -> TransactionInstruction)
    (ix : TransactionInstruction) :
  placeMarketOrderCctpIx self accounts args =
    ('(preparedBy, targetChain) <- resolvePreparedOrder self
                   (PlaceMarketOrderCctp.preparedOrder accounts)
                   (PlaceMarketOrderCctp.preparedBy accounts)
                   (PlaceMarketOrderCctp.targetChain args);;
     matchingEngine <- lift (matchingEngineProgram self);;
     routerEndpoint <- resolveRouterEndpoint matchingEngine
                         (PlaceMarketOrderCctp.routerEndpoint accounts)
                         targetChain;;
     destinationDomain <- resolveDestinationDomain matchingEngine routerEndpoint
                            (PlaceMarketOrderCctp.destinationDomain args);;
     _ <- emit (ComposeBurnAccounts (mint self) destinationDomain);;
     publish <- lift (publishMessageAccounts self (custodianAddress self));;
     ret (build preparedBy routerEndpoint destinationDomain publish)) ->
  fst (placeMarketOrderCctpIx self accounts args) = Ok ix ->
  exists preparedBy routerEndpoint destinationDomain publish,
    publishMessageAccounts self (custodianAddress self) = Ok publish /\
    ix = build preparedBy routerEndpoint destinationDomain publish.
Proof.
  intros Hb Hok.
  destruct (placeMarketOrderCctpIx self accounts args) as [r t] eqn:Hrun.
  cbn [fst] in Hok. subst r. symmetry in Hb.
  apply bind_inv in Hb
    as [(e & _ & He) | ([pb tc] & t1 & t' & _ & Hb & _)]; [discriminate He|].
  apply bind_inv in Hb
    as [(e & _ & He) | (me & t2 & t'' & _ & Hb & _)]; [discriminate He|].
  apply bind_inv in Hb
    as [(e & _ & He) | (re & t3 & t''' & _ & Hb & _)]; [discriminate He|].
  apply bind_inv in Hb
    as [(e & _ & He) | (d & t4 & t'''' & _ & Hb & _)]; [discriminate He|].
  apply bind_inv in Hb
    as [(e & _ & He) | (u & t5 & t''''' & _ & Hb & _)]; [discriminate He|].
  apply bind_inv in Hb
    as [(e & _ & He) | (publish & t6 & t'''''' & Hpub & Hb & _)];
    [discriminate He|].
  apply lift_inv in Hpub as [Hpub _]. cbn in Hb. injection Hb as Hix _.
  exists pb, re, d, publish. split; [now symmetry | now symmetry].
Qed.

(** X17. The static bundle and a placed order agree: whenever
    [placeMarketOrderCctpIx] returns an instruction and [commonAccounts]
    returns a bundle on the same client, the instruction's custodian, mint,
    core-bridge config, emitter sequence, fee collector and core-bridge
    program, and its token, system, rent and clock accounts, are the ones
    of the bundle. *)
Theorem placeMarketOrderCctpIx_agrees_with_commonAccounts
    (accounts : PlaceMarketOrderCctp.accounts) (args : PlaceMarketOrderCctp.args)
    (ix : TransactionInstruction) (common : Common.accounts) :
  fst (placeMarketOrderCctpIx self accounts args) = Ok ix ->
  fst (commonAccounts self) = Ok common ->
  accountAt ["custodian"; "custodian"] (Composite (accountsOf ix))
    = Some (Address (Common.custodian common)) /\
  account "mint" (accountsOf ix) = Some (Address (Common.mint common)) /\
  account "coreBridgeConfig" (accountsOf ix)
    = Some (Address (Common.coreBridgeConfig common)) /\
  account "coreEmitterSequence" (accountsOf ix)
    = Some (Address (Common.coreEmitterSequence common)) /\
  account "coreFeeCollector" (accountsOf ix)
    = Some (Address (Common.coreFeeCollector common)) /\
  account "coreBridgeProgram" (accountsOf ix)
    = Some (Address (Common.coreBridgeProgram common)) /\
  account "tokenProgram" (accountsOf ix)
    = Some (Address (Common.tokenProgram common)) /\
  account "systemProgram" (accountsOf ix)
    = Some (Address (Common.systemProgram common)) /\
  account "rent" (accountsOf ix) = Some (Address (Common.rent common)) /\
  account "clock" (accountsOf ix) = Some (Address (Common.clock common)).
Proof.
  intros Hplace Hcommon.
  destruct (placeMarketOrderCctpIx_blocks_roles accounts args)
    as (build & Hb & Hroles).
  destruct (placeMarketOrderCctpIx_returns accounts args build ix Hb Hplace)
    as (pb & re & d & publish & Hpub & ->).
  specialize (Hroles pb re d publish). cbn zeta in Hroles.
  destruct Hroles as (_ & _ & Hcust & Hmint & _ & Hcfg & Hseq & Hfee & Hprog
                      & Htoken & Hsystem & Hrent & Hclock).
  unfold commonAccounts in Hcommon. rewrite Hpub in Hcommon.
  destruct (matchingEngineProgram self) as [me|e]; [|discriminate Hcommon].
  cbn in Hcommon. injection Hcommon as <-.
  cbn [Common.custodian Common.mint Common.coreBridgeConfig
       Common.coreEmitterSequence Common.coreFeeCollector
       Common.coreBridgeProgram Common.tokenProgram Common.systemProgram
       Common.rent Common.clock].
  split.
  { cbn [accountAt]. rewrite Hcust. reflexivity. }
  repeat split; assumption.
Qed.

(** X18. One custody token per prepared account: the [preparedCustodyToken]
    account named by [prepareMarketOrderIx], [placeMarketOrderCctpIx] and
    [closePreparedOrderIx] for a prepared order, and by
    [consumePreparedFillIx] and [initIfNeededPreparedFillComposite] for a
    prepared fill, is the address derived under the program id from the
    seeds "prepared-custody" and the octets of that account. *)
Theorem preparedCustodyToken_is_one_address :
  let custody (prepared : PublicKey) :=
    Some (Address (fst (findProgramAddressSync
                          [from_string "prepared-custody"; toBuffer prepared]
                          (program_programId self)))) in
  (forall accounts args approveIx prepareIx,
      fst (prepareMarketOrderIx self accounts args) = Ok (approveIx, prepareIx) ->
      account "preparedCustodyToken" (accountsOf prepareIx)
      = custody (PrepareMarketOrder.preparedOrder accounts)) /\
  (forall accounts args ix,
      fst (placeMarketOrderCctpIx self accounts args) = Ok ix ->
      account "preparedCustodyToken" (accountsOf ix)
      = custody (PlaceMarketOrderCctp.preparedOrder accounts)) /\
  (forall accounts ix,
      fst (closePreparedOrderIx self accounts) = Ok ix ->
      account "preparedCustodyToken" (accountsOf ix)
      = custody (ClosePreparedOrder.preparedOrder accounts)) /\
  (forall accounts ix,
      fst (consumePreparedFillIx self accounts) = Ok ix ->
      account "preparedCustodyToken" (accountsOf ix)
      = custody (ConsumePreparedFill.preparedFill accounts)) /\
  (forall payer vaa preparedFill,
      accountAt ["custodyToken"]
        (initIfNeededPreparedFillComposite self payer vaa preparedFill)
      = custody preparedFill).
Proof.
  intros custody. subst custody. cbn beta.
  split; [|split; [|split; [|split]]].
  - intros accounts args approveIx prepareIx.
    unfold prepareMarketOrderIx.
    destruct (match PrepareMarketOrder.programTransferAuthority accounts with
              | Some given => _
              | None => _
              end) as [[[pta a]|e] t]; cbn [bind async_monad];
      [|intros H; discriminate H].
    destruct (uint64ToBN _) as [bn|e]; cbn; [|intros H; discriminate H].
    destruct (match minAmountOut (PrepareMarketOrder.order args) with
              | Some m => _
              | None => _
              end) as [mbn|e]; cbn; [|intros H; discriminate H].
    destruct (encodePrepareMarketOrder _) as [[]|e]; cbn;
      [|intros H; discriminate H].
    intros H. injection H as _ <-. reflexivity.
  - intros accounts args ix Hok.
    destruct (placeMarketOrderCctpIx_blocks_roles accounts args)
      as (build & Hb & Hroles).
    destruct (placeMarketOrderCctpIx_returns accounts args build ix Hb Hok)
      as (pb & re & d & publish & _ & ->).
    specialize (Hroles pb re d publish). cbn zeta in Hroles.
    destruct Hroles as (_ & _ & _ & _ & Hcustody & _). exact Hcustody.
  - intros accounts ix. unfold closePreparedOrderIx.
    destruct (match ClosePreparedOrder.preparedBy accounts with
              | Some p => _
              | None => _
              end) as [[[[p o] r]|e] t]; cbn; intros H;
      [|discriminate H].
    injection H as <-. reflexivity.
  - intros accounts ix. unfold consumePreparedFillIx. cbn.
    intros H. injection H as <-. reflexivity.
  - intros payer vaa preparedFill. reflexivity.
Qed.

End StaticAccounts.

(** ** Further concrete runs *)

Section FurtherRuns.

Import Scenario Cases.

#[local] Existing Instance Scenario.ideal.
#[local] Existing Instance Counterpart.ideal.

Lemma transferAuthorityAddress_redeemer_mod_256_witness :
  map (fun x => x mod 256) (repeat 263 32)
    = map (fun x => x mod 256) (redeemer order100) /\
  transferAuthorityAddress (client localnet) orderAccount order100_wide
  = transferAuthorityAddress (client localnet) orderAccount order100.
Proof.
  split; [reflexivity|].
  apply (transferAuthorityAddress_redeemer_mod_256 (C := ideal)
           (client localnet) orderAccount order100 (repeat 263 32)).
  reflexivity.
Defined.

Lemma transferAuthorityAddress_presence_not_marked_witness :
  OrderParameters order100 = true /\
  minAmountOut order100 = Some 100 /\
  OrderParameters (absorbMinimum order100 100) = true /\
  minAmountOut (absorbMinimum order100 100) = None /\
  amountIn (absorbMinimum order100 100) = amountIn order100 /\
  forall (self : TokenRouterProgram) (preparedOrder : PublicKey),
    exists k,
      transferAuthorityAddress self preparedOrder order100 = Ok k /\
      transferAuthorityAddress self preparedOrder (absorbMinimum order100 100)
      = Ok k.
Proof.
  split; [reflexivity|]. split; [reflexivity|].
  apply (transferAuthorityAddress_presence_not_marked (C := ideal));
    reflexivity.
Defined.

(** The order without a minimum that shares its address with [order100]:
    chain 0, a redeemer that starts with the octets of 100 and of chain 2. *)
Example absorbed_order :
  targetChain (absorbMinimum order100 100) = 0 /\
  firstn 8 (redeemer (absorbMinimum order100 100)) = [0; 0; 0; 0; 0; 100; 0; 2] /\
  redeemerMessage (absorbMinimum order100 100)
  = repeat x07 8 ++ from_string "hello".
Proof. vm_compute. repeat split. Qed.

Lemma transferAuthorityAddress_binds_order_witness :
  OrderParameters order100 = true /\
  OrderParameters order200 = true /\
  (minAmountOut order100 = None <-> minAmountOut order200 = None) /\
  exists k1 k2 : PublicKey,
    transferAuthorityAddress (client localnet) orderAccount order100 = Ok k1 /\
    transferAuthorityAddress (client localnet) orderAccount order200 = Ok k2 /\
    k1 <> k2.
Proof.
  assert (Hpresence : minAmountOut order100 = None <-> minAmountOut order200 = None)
    by (split; intros H; discriminate H).
  split; [reflexivity|]. split; [reflexivity|]. split; [exact Hpresence|].
  destruct (transferAuthorityAddress_binds_order (C := ideal)
              (client localnet) orderAccount orderAccount order100 order200
              eq_refl eq_refl Hpresence)
    as (k1 & k2 & H1 & H2 & Hbind).
  exists k1, k2. split; [exact H1|]. split; [exact H2|].
  intros Hsame.
  destruct (Hbind Hsame) as [[_ Horder] | [[Hfed Hhash] | [Hseeds Haddress]]].
  - discriminate Horder.
  - now apply Hfed.
  - apply ideal_derive_inj in Haddress. now apply Hseeds.
Defined.

Lemma transferAuthorityAddress_returns_iff_chain_fits_witness :
  u64 (amountIn order100) = true /\
  u16 (targetChain order100) = true /\
  u16 (targetChain order100_far) = false /\
  (exists k,
      transferAuthorityAddress (client localnet) orderAccount order100 = Ok k) /\
  transferAuthorityAddress (client localnet) orderAccount order100_far
  = Throw (RangeError "ERR_OUT_OF_RANGE").
Proof.
  split; [reflexivity|]. split; [reflexivity|]. split; [reflexivity|]. split.
  - destruct (transferAuthorityAddress_returns_iff_chain_fits (C := ideal)
                (client localnet) orderAccount order100 eq_refl eq_refl)
      as (Hfits & _ & _).
    eexists. now apply Hfits.
  - destruct (transferAuthorityAddress_returns_iff_chain_fits (C := ideal)
                (client localnet) orderAccount order100_far eq_refl eq_refl)
      as (_ & Hfar & _).
    now apply Hfar.
Defined.


(** Outside the data model the encoder of the prepare instruction refuses:
    a redeemer entry of 263 is no octet, although [transferAuthorityAddress]
    accepts it (X2). *)
Example prepare_wide_redeemer_refused :
  prepareMarketOrderIx (client localnet) prepareWithNullAuthority
    {| PrepareMarketOrder.useTransferAuthority := None;
       PrepareMarketOrder.order := order100_wide |}
  = (Throw (RangeError "ERR_OUT_OF_RANGE"), []).
Proof. vm_compute. reflexivity. Qed.


Lemma prepareMarketOrderIx_owner_not_found_witness :
  PrepareMarketOrder.programTransferAuthority prepareFromBob = None /\
  PrepareMarketOrder.senderTokenAuthority prepareFromBob = None /\
  tokenAccountAt ledger bobToken = None /\
  prepareMarketOrderIx (client localnet) prepareFromBob (prepareArgs None) =
  (Throw (AccountNotFound (toBuffer bobToken)), [ReadTokenAccount bobToken]).
Proof.
  split; [reflexivity|]. split; [reflexivity|]. split; [reflexivity|].
  apply (prepareMarketOrderIx_owner_not_found (C := ideal) (client localnet)
           prepareFromBob (prepareArgs None)); reflexivity.
Defined.

Lemma closePreparedOrderIx_order_not_found_witness :
  ClosePreparedOrder.preparedBy closeUnknown = None /\
  preparedOrderAt ledger fillAccount = None /\
  closePreparedOrderIx (client localnet) closeUnknown =
  (Throw (AccountNotFound (toBuffer fillAccount)), [ReadPreparedOrder fillAccount]).
Proof.
  split; [reflexivity|]. split; [reflexivity|].
  apply (closePreparedOrderIx_order_not_found (C := ideal) (client localnet)
           closeUnknown); [left; reflexivity | reflexivity].
Defined.

Lemma placeMarketOrderCctpIx_all_given_witness :
  In (_programId (client testnet)) PROGRAM_IDS /\
  isChainId 65000 = false /\
  preparedOrderAt ledger fillAccount = None /\
  exists matchingEngine ix,
    matchingEngineProgram (client testnet) = Ok matchingEngine /\
    placeMarketOrderCctpIx (client testnet) (placeGiven None)
      (placeArgs (Some 65000) (Some 3)) =
    (Ok ix, [DeriveRouterEndpoint 65000; ComposeBurnAccounts usdc 3]) /\
    account "preparedBy" (accountsOf ix) = Some (Address bob) /\
    account "routerEndpoint" (accountsOf ix) =
    Some (Address (routerEndpointAddress matchingEngine 65000)).
Proof.
  split; [right; left; reflexivity|]. split; [reflexivity|].
  split; [reflexivity|].
  apply (placeMarketOrderCctpIx_all_given (C := ideal) (client testnet)
           (placeGiven None) (placeArgs (Some 65000) (Some 3)) bob 65000 3);
    [right; left; reflexivity | reflexivity..].
Defined.

Lemma placeMarketOrderCctpIx_unknown_network_witness :
  ~ In (_programId (client foreign)) PROGRAM_IDS /\
  (exists e,
      fst (placeMarketOrderCctpIx (client foreign)
             (placeAccounts orderAccount None) (placeArgs None None)) = Throw e) /\
  (forall ev,
      In ev (snd (placeMarketOrderCctpIx (client foreign)
                    (placeAccounts orderAccount None) (placeArgs None None))) ->
      ev = ReadPreparedOrder orderAccount) /\
  placeMarketOrderCctpIx (client foreign) (placeGiven None)
    (placeArgs (Some 2) None) = (Throw (Error "unsupported network"), []).
Proof.
  assert (Hforeign : ~ In (_programId (client foreign)) PROGRAM_IDS).
  { intros [H | [H | []]]; discriminate H. }
  split; [exact Hforeign|].
  destruct (placeMarketOrderCctpIx_unknown_network (C := ideal) (client foreign)
              (placeAccounts orderAccount None) (placeArgs None None) Hforeign)
    as (Hfails & Hreads & _).
  split; [exact Hfails|]. split; [exact Hreads|].
  destruct (placeMarketOrderCctpIx_unknown_network (C := ideal) (client foreign)
              (placeGiven None) (placeArgs (Some 2) None) Hforeign)
    as (_ & _ & Hgiven).
  apply Hgiven; discriminate.
Defined.

Lemma placeMarketOrderCctpIx_given_chain_overrides_stored_witness :
  In (_programId (client testnet)) PROGRAM_IDS /\
  PlaceMarketOrderCctp.preparedBy (placeAccounts orderAccount None) = None /\
  exists matchingEngine ix,
    matchingEngineProgram (client testnet) = Ok matchingEngine /\
    placeMarketOrderCctpIx (client testnet) (placeAccounts orderAccount None)
      (placeArgs (Some 6) (Some 3)) =
    (Ok ix, [ReadPreparedOrder orderAccount; DeriveRouterEndpoint 6;
             ComposeBurnAccounts usdc 3]) /\
    account "preparedBy" (accountsOf ix) = Some (Address bob) /\
    account "routerEndpoint" (accountsOf ix)
    = Some (Address (routerEndpointAddress matchingEngine 6)).
Proof.
  split; [right; left; reflexivity|]. split; [reflexivity|].
  apply (placeMarketOrderCctpIx_given_chain_overrides_stored (C := ideal)
           (client testnet) (placeAccounts orderAccount None)
           (placeArgs (Some 6) (Some 3))
           {| info := {| PreparedOrderInfo.orderSender := alice;
                         PreparedOrderInfo.preparedBy := bob;
                         PreparedOrderInfo.refundToken := aliceToken;
                         PreparedOrderInfo.targetChain := 2 |} |} 3);
    [right; left; reflexivity | left; reflexivity | reflexivity | reflexivity
    | vm_compute; reflexivity | reflexivity].
Defined.

Lemma placeMarketOrderCctpIx_endpoint_not_found_witness :
  In (_programId (client testnet)) PROGRAM_IDS /\
  routerEndpointAt ledger carol = None /\
  placeMarketOrderCctpIx (client testnet) (placeGiven (Some carol))
    (placeArgs (Some 2) None) =
  (Throw (AccountNotFound (toBuffer carol)), [ReadRouterEndpoint carol]).
Proof.
  split; [right; left; reflexivity|]. split; [reflexivity|].
  apply (placeMarketOrderCctpIx_endpoint_not_found (C := ideal) (client testnet)
           (placeGiven (Some carol)) (placeArgs (Some 2) None) bob carol 2);
    [right; left; reflexivity | reflexivity..].
Defined.

Lemma placeMarketOrderCctpIx_agrees_with_commonAccounts_witness :
  exists ix common,
    fst (placeMarketOrderCctpIx (client testnet) (placeGiven None)
           (placeArgs (Some 2) (Some 3))) = Ok ix /\
    fst (commonAccounts (client testnet)) = Ok common /\
    accountAt ["custodian"; "custodian"] (Composite (accountsOf ix))
      = Some (Address (Common.custodian common)) /\
    account "mint" (accountsOf ix) = Some (Address (Common.mint common)) /\
    account "coreBridgeConfig" (accountsOf ix)
      = Some (Address (Common.coreBridgeConfig common)) /\
    account "coreEmitterSequence" (accountsOf ix)
      = Some (Address (Common.coreEmitterSequence common)) /\
    account "coreFeeCollector" (accountsOf ix)
      = Some (Address (Common.coreFeeCollector common)) /\
    account "coreBridgeProgram" (accountsOf ix)
      = Some (Address (Common.coreBridgeProgram common)) /\
    account "tokenProgram" (accountsOf ix)
      = Some (Address (Common.tokenProgram common)) /\
    account "systemProgram" (accountsOf ix)
      = Some (Address (Common.systemProgram common)) /\
    account "rent" (accountsOf ix) = Some (Address (Common.rent common)) /\
    account "clock" (accountsOf ix) = Some (Address (Common.clock common)).
Proof.
  destruct (fst (placeMarketOrderCctpIx (client testnet) (placeGiven None)
                   (placeArgs (Some 2) (Some 3)))) as [ix|e] eqn:Hplace;
    [|vm_compute in Hplace; discriminate Hplace].
  destruct (fst (commonAccounts (client testnet))) as [common|e] eqn:Hcommon;
    [|vm_compute in Hcommon; discriminate Hcommon].
  exists ix, common. split; [reflexivity|]. split; [reflexivity|].
  exact (placeMarketOrderCctpIx_agrees_with_commonAccounts (C := ideal)
           (P := Counterpart.ideal) (client testnet) (placeGiven None)
           (placeArgs (Some 2) (Some 3)) ix common Hplace Hcommon).
Defined.

(** [initializeIx] with another mint: the mint account follows the input,
    the mint recipient does not. *)
Example initialize_with_other_mint :
  exists ix,
    initializeIx (client localnet)
      {| Initialize.owner := alice;
         Initialize.ownerAssistant := bob;
         Initialize.mint := Some carol |} = (Ok ix, []) /\
    accountAt ["mint"; "mint"] (Composite (accountsOf ix)) = Some (Address carol) /\
    account "cctpMintRecipient" (accountsOf ix)
    = option_map Address
        (match cctpMintRecipientAddress (client localnet) with
         | Ok k => Some k
         | Throw _ => None
         end).
Proof. eexists. split; [vm_compute; reflexivity|]. split; reflexivity. Qed.

End FurtherRuns.
